(** * ForkAndSwitchToNamespace (src/util/ns_evaluator.go)

    A shallow embedding of the fork-and-switch namespace evaluator.  The
    kernel is an oracle: every raw system call of the source reads its
    result from an environment record, and each process records the
    system calls (and log lines) it performs as a trace of events.  The
    child writes a byte stream into the pipe; the parent's reader goroutine
    consumes that stream in chunks chosen by the environment; the
    [select] between the reader and [time.After] is resolved by the
    environment as well. *)

From Stdlib Require Import String Ascii List Bool Arith Lia ZArith.
Import ListNotations.
Open Scope string_scope.
Open Scope list_scope.

(** ** Go values used by the source *)

(** [unix.Errno] values the embedding needs, with their [Error()] text. *)
Inductive errno := EPERM | ENOENT | ESRCH | EINTR | EBADF | EAGAIN | ENOMEM
                 | EINVAL | EMFILE.

Definition errno_Error (e : errno) : string :=
  match e with
  | EPERM => "operation not permitted"
  | ENOENT => "no such file or directory"
  | ESRCH => "no such process"
  | EINTR => "interrupted system call"
  | EBADF => "bad file descriptor"
  | EAGAIN => "resource temporarily unavailable"
  | ENOMEM => "cannot allocate memory"
  | EINVAL => "invalid argument"
  | EMFILE => "too many open files"
  end.

(** [errors.Wrapf(err, msg).Error()] from github.com/pkg/errors. *)
Definition Wrapf (e : errno) (msg : string) : string :=
  (msg ++ ": " ++ errno_Error e)%string.

(** A Go [[]byte]: a list of 8-bit characters. *)
Definition bytes := list ascii.

Definition NUL : ascii := Ascii.zero.

(** [bytes.Contains(b, []byte{0})]. *)
Definition has_nul (b : bytes) : bool := existsb (Ascii.eqb NUL) b.

(** [strings.CutPrefix]: the rest of [s] after [p], when [s] starts with [p]. *)
Fixpoint CutPrefix (s p : string) {struct p} : option string :=
  match p, s with
  | EmptyString, _ => Some s
  | String c p', String d s' => if Ascii.eqb c d then CutPrefix s' p' else None
  | String _ _, EmptyString => None
  end.

(** [strings.HasPrefix] and [strings.TrimPrefix]. *)
Definition HasPrefix (s p : string) : bool :=
  match CutPrefix s p with Some _ => true | None => false end.

Definition TrimPrefix (s p : string) : string :=
  match CutPrefix s p with Some r => r | None => s end.

(** [filepath.Join(dir, elem)] for a single element; the lexical [Clean]
    of the joined path is left out, it never adds or removes a NUL byte. *)
Definition filepath_Join (dir elem : string) : string :=
  match dir with
  | EmptyString => elem
  | _ => (dir ++ "/" ++ elem)%string
  end.

(** [unix.BytePtrFromString]: fails with EINVAL when the string holds a NUL
    byte; otherwise the C string is the Go string itself. *)
Definition BytePtrFromString (s : string) : option errno :=
  if has_nul (list_ascii_of_string s) then Some EINVAL else None.

Definition CLONE_NEWNET : Z := 1073741824.  (* 0x40000000 *)
Definition CLONE_NEWNS : Z := 131072.       (* 0x00020000 *)
Definition SIGINT : Z := 2.

(** ** Observable actions *)

Inductive event :=
| EvPipe                           (* unix.Pipe *)
| EvFork                           (* RawSyscall(SYS_FORK) *)
| EvOpen (path : string)           (* openat(AT_FDCWD, path, O_RDONLY) *)
| EvSetns (fd : Z) (nstype : Z)    (* setns(fd, nstype) *)
| EvClose (fd : Z)                 (* close_raw(fd) *)
| EvRead (fd : Z)                  (* read(fd, ...) *)
| EvWrite (fd : Z)                 (* write(fd, ...) *)
| EvKill (pid : Z) (sig : Z)       (* unix.Kill(pid, sig) *)
| EvLog (level : string) (msg : string)  (* logrus *)
| EvExec                           (* toExecute() is called *)
| EvExitGroup.                     (* RawSyscallNoError(SYS_EXIT_GROUP) *)

(** The actions of the mount-namespace half of [switchNs]. *)
Definition mount_step (mountNs : string) (ev : event) : Prop :=
  match ev with
  | EvOpen p => p = mountNs
  | EvSetns _ t => t = CLONE_NEWNS
  | _ => False
  end.

(** ** Kernel results, supplied by the environment *)

Inductive pipe_result := PipeErr (e : errno) | PipeOk (r w : Z).
Inductive fork_result := ForkErr (e : errno) | ForkOk (pid : positive).
Inductive open_result := OpenErr (e : errno) | OpenFd (fd : Z).

(** One write(2) on the pipe: how many bytes the kernel accepts, or an
    error.  Once the plan is used up, every write takes the whole buffer. *)
Inductive write_step := WriteN (n : nat) | WriteErr (e : errno).

(** One read(2) on the pipe: the most bytes the kernel hands over (at least
    one while bytes are pending), or an error.  Once the plan is used up,
    every read fills the whole request with what is pending. *)
Inductive read_step := ReadN (n : nat) | ReadErr (e : errno).

(** A Go [error] result: [Ok] or an error carrying its [Error()] text. *)
Inductive result (A : Type) := Ok (a : A) | Err (msg : string).
Arguments Ok {A} a.
Arguments Err {A} msg.

(** ** encoding/json for the result type [T]

    [marshal_value] is [json.Marshal] of a non-nil [*T]; [unmarshal_value]
    is [json.Unmarshal] of a document other than [null] into a [*T];
    [null_into] is the effect of the document [null] on the destination
    (nothing for values, nil for pointers, maps, slices and interfaces),
    which leaves a zero value as it is.  [json.Marshal] escapes every
    control character, so its output holds no NUL byte. *)
Class GoJSON (T : Type) := {
  zero_value : T;
  marshal_value : T -> result string;
  unmarshal_value : string -> T -> result T;
  null_into : T -> T;
  null_into_zero : null_into zero_value = zero_value;
  marshal_value_no_nul : forall v s, marshal_value v = Ok s ->
    has_nul (list_ascii_of_string s) = false
}.

Section Evaluator.
Context {T : Type} `{GoJSON T}.

(** [json.Marshal(out)] for [out : *T]: a nil pointer is [null]. *)
Definition json_Marshal (out : option T) : result string :=
  match out with
  | None => Ok "null"
  | Some v => marshal_value v
  end.

(** [json.Unmarshal(data, &dst)]. *)
Definition json_Unmarshal (data : string) (dst : T) : result T :=
  if String.eqb data "null" then Ok (null_into dst) else unmarshal_value data dst.

(** The environment of one call: the argument [ns], the caller's logic and
    the results of every system call.  [toExecute] is [None] when the logic
    never returns, else the pair [( *T, error)] it returns. *)
Record env := {
  ns : string;
  toExecute : option (option T * option string);
  sys_pipe : pipe_result;
  sys_fork : fork_result;
  sys_open : string -> open_result;
  sys_setns : Z -> Z -> option errno;
  sys_close : Z -> option errno;
  write_plan : list write_step;
  read_plan : list read_step;
  timer_first : bool;   (* the select takes [time.After] although [done] is ready *)
  sys_kill : Z -> Z -> option errno
}.

Variable E : env.

(** *** Raw system-call wrappers (ns_evaluator.go:159-217) *)

(** [open(path, O_RDONLY, 0644)]: the descriptor, or -1 and the error. *)
Definition open (path : string) : list event * (Z * option errno) :=
  match sys_open E path with
  | OpenFd fd => ([EvOpen path], (fd, None))
  | OpenErr e => ([EvOpen path], ((-1)%Z, Some e))
  end.

Definition setns (fd nstype : Z) : list event * option errno :=
  ([EvSetns fd nstype], sys_setns E fd nstype).

Definition close_raw (fd : Z) : list event * option errno :=
  ([EvClose fd], sys_close E fd).

(** *** switchNs (ns_evaluator.go:219-254) *)
Definition switchNs (mountNs netNs : string) : list event * option string :=
  let '(ev1, (fd, err)) := open netNs in
  match err with
  | Some e => (ev1, Some (Wrapf e "failed to open net namespace"))
  | None =>
    let '(ev2, err) := setns fd CLONE_NEWNET in
    match err with
    | Some e => (ev1 ++ ev2 ++ fst (close_raw fd),
                 Some (Wrapf e "failed to setns net namespace"))
    | None =>
      let '(ev3, err) := close_raw fd in
      match err with
      | Some e => (ev1 ++ ev2 ++ ev3, Some (Wrapf e "failed to close net namespace"))
      | None =>
        let '(ev4, (fd, err)) := open mountNs in
        match err with
        | Some e => (ev1 ++ ev2 ++ ev3 ++ ev4,
                     Some (Wrapf e "failed to open mount namespace"))
        | None =>
          let '(ev5, err) := setns fd CLONE_NEWNS in
          match err with
          | Some e => (ev1 ++ ev2 ++ ev3 ++ ev4 ++ ev5 ++ fst (close_raw fd),
                       Some (Wrapf e "failed to setns mount namespace"))
          | None =>
            let '(ev6, err) := close_raw fd in
            match err with
            | Some e => (ev1 ++ ev2 ++ ev3 ++ ev4 ++ ev5 ++ ev6,
                         Some (Wrapf e "failed to close mount namespace"))
            | None => (ev1 ++ ev2 ++ ev3 ++ ev4 ++ ev5 ++ ev6, None)
            end
          end
        end
      end
    end
  end.

(** *** The child process (ns_evaluator.go:108-156) *)

(** The message of lines 127-141: [err:<error>] or [ok:<json>] ... *)
Definition child_text (out : option T) (err : option string) : string :=
  match err with
  | Some e => ("err:" ++ e)%string
  | None =>
    match json_Marshal out with
    | Err e => ("err:" ++ e)%string
    | Ok base => ("ok:" ++ base)%string
    end
  end.

(** ... then the NUL byte that ends it (line 141). *)
Definition child_message (out : option T) (err : option string) : bytes :=
  list_ascii_of_string (child_text out err) ++ [NUL].

(** The loop [for written < len(msg)] of lines 143-150: the write events
    and the bytes that reached the pipe.  A failed write ends the loop. *)
Fixpoint write_loop (fd : Z) (plan : list write_step) (rest : bytes)
  : list event * bytes :=
  match rest with
  | [] => ([], [])
  | _ :: _ =>
    match plan with
    | [] => ([EvWrite fd], rest)
    | WriteErr _ :: _ => ([EvWrite fd], [])
    | WriteN n :: plan' =>
      let k := Nat.min n (length rest) in
      let '(ev, w) := write_loop fd plan' (skipn k rest) in
      (EvWrite fd :: ev, firstn k rest ++ w)
    end
  end.

(** What the child leaves behind: its actions, the bytes it put in the
    pipe, and whether it reached [close_raw(pipes[1])] and [exit_group]
    (which ends the stream for the reader). *)
Record child_trace := {
  c_events : list event;
  c_stream : bytes;
  c_closed : bool
}.

Definition child_finish (w : Z) (ev : list event) (out : option T) (err : option string)
  : child_trace :=
  let '(wev, written) := write_loop w (write_plan E) (child_message out err) in
  {| c_events := ev ++ wev ++ [EvClose w; EvExitGroup];
     c_stream := written;
     c_closed := true |}.

Definition child_process (mountNs netNs : string) (w : Z) : child_trace :=
  let '(sev, err) := switchNs mountNs netNs in
  match err with
  | Some e => child_finish w sev None (Some e)
  | None =>
    match toExecute E with
    | None => {| c_events := sev ++ [EvExec]; c_stream := []; c_closed := false |}
    | Some (out, err) => child_finish w (sev ++ [EvExec]) out err
    end
  end.

(** *** The parent's reader goroutine (ns_evaluator.go:51-74) *)

Inductive read_outcome := ReadBlocks | ReadFails (e : errno) | ReadReturns (n : nat).

(** One [read(pipes[0], buf[bufIndex:])] of [len] bytes, on a pipe holding
    [rest] whose writers are all gone when [closed] holds. *)
Definition pipe_read (plan : list read_step) (rest : bytes) (closed : bool) (len : nat)
  : read_outcome :=
  match plan with
  | ReadErr e :: _ => ReadFails e
  | _ =>
    match rest with
    | [] => if closed then ReadReturns 0 else ReadBlocks
    | _ :: _ =>
      let k := match plan with ReadN k :: _ => Nat.max 1 k | _ => len end in
      ReadReturns (Nat.min k (Nat.min len (length rest)))
    end
  end.

(** The loop of lines 55-71.  [buf] is [buf[:bufIndex]], the filled part
    of the Go slice of size [bufSize].  The result is the value sent on
    [done] with the reader's actions, or [None] when the reader blocks
    for good.  Every round that does not end the loop consumes a byte of
    the pipe, so [S (length rest)] rounds suffice. *)
Fixpoint reader_loop (fuel : nat) (fd : Z) (plan : list read_step) (rest : bytes)
  (closed : bool) (buf : bytes) (bufSize : nat) : option (list event * bytes) :=
  match fuel with
  | O => None
  | S fuel' =>
    let bufSize := if Nat.eqb (length buf) bufSize then bufSize + bufSize else bufSize in
    match pipe_read plan rest closed (bufSize - length buf) with
    | ReadBlocks => None
    | ReadFails e =>
      Some ([EvRead fd; EvLog "error" ("failed to read from setns pipe: " ++ errno_Error e)%string],
            [])
    | ReadReturns n =>
      let buf := buf ++ firstn n rest in
      if Nat.eqb n 0 || has_nul buf then Some ([EvRead fd; EvClose fd], buf)
      else
        match reader_loop fuel' fd (tl plan) (skipn n rest) closed buf bufSize with
        | Some (ev, b) => Some (EvRead fd :: ev, b)
        | None => None
        end
    end
  end.

Definition reader (fd : Z) (stream : bytes) (closed : bool) : option (list event * bytes) :=
  reader_loop (S (length stream)) fd (read_plan E) stream closed [] 256.

(** *** The parent after the fork (ns_evaluator.go:44-106) *)

(** The caller-visible end of a call, one constructor per group of
    [return] statements of the parent; [OPanic] is the run-time panic of
    [buf[len(buf)-1]] on an empty [buf]. *)
Inductive outcome :=
| OSuccess (v : T)          (* return &unmarshalled, nil *)
| OErrMsg (msg : string)    (* return nil, errors.New(TrimPrefix(out, "err:")) *)
| OProtocol (msg : string)  (* bad terminator, json error, unknown response *)
| OTimeout                  (* return nil, errors.New("... timed out") *)
| OSetup (msg : string)     (* BytePtrFromString, Pipe or fork failure *)
| OPanic.

(** The Go values [( *T, error)] the caller receives; [None] for a panic. *)
Definition go_result (o : outcome) : option (option T * option string) :=
  match o with
  | OSuccess v => Some (Some v, None)
  | OErrMsg m | OProtocol m | OSetup m => Some (None, Some m)
  | OTimeout => Some (None, Some "ForkAndSwitchToNamespace timed out")
  | OPanic => None
  end.

(** The four caller-visible ends of a call past the fork named by the
    spec: successful decode, error decode, protocol error and timeout. *)
Inductive terminal := TSuccess | TErrDecode | TProtocol | TTimeout.

Definition terminal_of (o : outcome) : option terminal :=
  match o with
  | OSuccess _ => Some TSuccess
  | OErrMsg _ => Some TErrDecode
  | OProtocol _ => Some TProtocol
  | OTimeout => Some TTimeout
  | OSetup _ | OPanic => None
  end.

(** The case [buf := <-done] of lines 77-96. *)
Definition decode (buf : bytes) : outcome :=
  match buf with
  | [] => OPanic
  | _ :: _ =>
    if negb (Ascii.eqb (last buf NUL) NUL)
    then OProtocol "invalid termination character, not NUL"
    else
      let out := string_of_list_ascii (removelast buf) in
      if HasPrefix out "err:" then OErrMsg (TrimPrefix out "err:")
      else if HasPrefix out "ok:" then
        match json_Unmarshal (TrimPrefix out "ok:") zero_value with
        | Err e => OProtocol e
        | Ok unmarshalled => OSuccess unmarshalled
        end
      else OProtocol ("unknown response: " ++ out)%string
  end.

(** The case [<-time.After(timeout)] of lines 98-104. *)
Definition timeout_branch (pid : Z) : list event * outcome :=
  match sys_kill E pid SIGINT with
  | Some e => ([EvKill pid SIGINT;
                EvLog "warning" ("failed to kill setns process: " ++ errno_Error e)%string],
               OTimeout)
  | None => ([EvKill pid SIGINT], OTimeout)
  end.

(** The select: the value received on [done], if that case is taken. *)
Definition select_done (rd : option (list event * bytes)) : option bytes :=
  match rd with
  | Some (_, b) => if timer_first E then None else Some b
  | None => None
  end.

Definition parent_process (pid r w : Z) (ch : child_trace)
  : list event * option bytes * outcome :=
  let rd := reader r (c_stream ch) (c_closed ch) in
  let rev := match rd with Some (ev, _) => ev | None => [] end in
  match select_done rd with
  | Some buf => (EvClose w :: rev, Some buf, decode buf)
  | None =>
    let '(tev, o) := timeout_branch pid in
    (EvClose w :: rev ++ tev, None, o)
  end.

(** *** ForkAndSwitchToNamespace (ns_evaluator.go:20-157) *)

(** One call: its outcome, the parent's actions, the child (if one was
    forked) and the buffer the select received on [done], if any. *)
Record run := {
  r_outcome : outcome;
  r_parent : list event;
  r_child : option child_trace;
  r_received : option bytes
}.

Definition ForkAndSwitchToNamespace : run :=
  let mountNs := filepath_Join (ns E) "mnt" in
  let netNs := filepath_Join (ns E) "net" in
  match BytePtrFromString mountNs with
  | Some e => {| r_outcome := OSetup (errno_Error e); r_parent := [];
                 r_child := None; r_received := None |}
  | None =>
  match BytePtrFromString netNs with
  | Some e => {| r_outcome := OSetup (errno_Error e); r_parent := [];
                 r_child := None; r_received := None |}
  | None =>
  match sys_pipe E with
  | PipeErr e => {| r_outcome := OSetup (Wrapf e "failed to init pipes");
                    r_parent := [EvPipe]; r_child := None; r_received := None |}
  | PipeOk r w =>
    match sys_fork E with
    | ForkErr e => {| r_outcome := OSetup (Wrapf e "failed to fork");
                      r_parent := [EvPipe; EvFork]; r_child := None; r_received := None |}
    | ForkOk pid =>
      let ch := child_process mountNs netNs w in
      let '(pev, got, o) := parent_process (Zpos pid) r w ch in
      {| r_outcome := o; r_parent := EvPipe :: EvFork :: pev;
         r_child := Some ch; r_received := got |}
    end
  end
  end
  end.

End Evaluator.

(** ** A concrete result type: Go's [bool] *)

Definition bool_unmarshal (s : string) (dst : bool) : result bool :=
  if String.eqb s "true" then Ok true
  else if String.eqb s "false" then Ok false
  else Err ("json: cannot unmarshal " ++ s ++ " into Go value of type bool")%string.

Definition bool_marshal (b : bool) : result string := Ok (if b then "true" else "false").

Lemma bool_marshal_no_nul : forall v s, bool_marshal v = Ok s ->
  has_nul (list_ascii_of_string s) = false.
Proof. intros [|] s Hs; injection Hs as <-; reflexivity. Qed.

#[global] Instance GoJSON_bool : GoJSON bool := {
  zero_value := false;
  marshal_value := bool_marshal;
  unmarshal_value := bool_unmarshal;
  null_into b := b;
  null_into_zero := eq_refl;
  marshal_value_no_nul := bool_marshal_no_nul
}.

(** Calls on [ns = /proc/42/ns] with the pipe [3, 4]; setns and close
    always succeed. *)
Definition test_env (logic : option (option bool * option string))
  (opn : string -> open_result) (frk : fork_result)
  (wplan : list write_step) (rplan : list read_step) (timer : bool)
  (kill : Z -> Z -> option errno) : @env bool := {|
  ns := "/proc/42/ns";
  toExecute := logic;
  sys_pipe := PipeOk 3 4;
  sys_fork := frk;
  sys_open := opn;
  sys_setns := fun _ _ => None;
  sys_close := fun _ => None;
  write_plan := wplan;
  read_plan := rplan;
  timer_first := timer;
  sys_kill := kill
|}.

(** Both handles exist: [net] opens as descriptor 5, [mnt] as 6. *)
Definition good_open (p : string) : open_result :=
  if String.eqb p "/proc/42/ns/net" then OpenFd 5 else OpenFd 6.

(** The [net] handle is missing. *)
Definition nonet_open (p : string) : open_result :=
  if String.eqb p "/proc/42/ns/net" then OpenErr ENOENT else OpenFd 6.

(** Every system call succeeds, the child is pid 100 and [done] wins. *)
Definition good_env (logic : option (option bool * option string)) : @env bool :=
  test_env logic good_open (ForkOk 100) [] [] false (fun _ _ => None).

(** The child's write breaks after [ok:t], so [done] receives [ok:t]. *)
Definition truncated_env : @env bool :=
  test_env (Some (Some true, None)) good_open (ForkOk 100) [WriteN 4; WriteErr EINTR] [] false
    (fun _ _ => None).

(** The first read of the parent fails. *)
Definition read_error_env : @env bool :=
  test_env (Some (Some true, None)) good_open (ForkOk 100) [] [ReadErr EINTR] false
    (fun _ _ => None).

(** The timer wins and the kill fails with ESRCH. *)
Definition timeout_env : @env bool :=
  test_env (Some (Some true, None)) good_open (ForkOk 100) [] [] true (fun _ _ => Some ESRCH).

Definition nonet_env : @env bool :=
  test_env (Some (Some true, None)) nonet_open (ForkOk 100) [] [] false (fun _ _ => None).

(** The fork fails with EAGAIN. *)
Definition fork_fail_env : @env bool :=
  test_env (Some (Some true, None)) good_open (ForkErr EAGAIN) [] [] false (fun _ _ => None).

(** * The iSCSI initiator helpers (src/iscsi/initiator.go) *)

Module Initiator.

(** ** Go string functions on byte strings *)

(** [strings.Contains(s, sub)]. *)
Fixpoint Contains (s sub : string) : bool :=
  HasPrefix s sub || match s with EmptyString => false | String _ s' => Contains s' sub end.

(** [strings.HasSuffix(s, suf)]. *)
Definition HasSuffix (s suf : string) : bool :=
  (String.length suf <=? String.length s)%nat &&
  String.eqb (substring (String.length s - String.length suf) (String.length suf) s) suf.

(** [strings.Split(s, sep)[0]] for a non-empty [sep]: the text before the
    first [sep]. *)
Fixpoint Split0 (s sep : string) : string :=
  if HasPrefix s sep then EmptyString
  else match s with
       | EmptyString => EmptyString
       | String c s' => String c (Split0 s' sep)
       end.

(** The UTF-8 encodings of the runes [unicode.IsSpace] accepts: U+0009 to
    U+000D, U+0020, U+0085, U+00A0, U+1680, U+2000 to U+200A, U+2028,
    U+2029, U+202F, U+205F and U+3000.  [space_head b] is the width of
    such an encoding at the front of [b], [space_tail r] at the front of
    the reversed bytes [r] (the end of the string). *)
Definition space_head (b : list ascii) : nat :=
  match List.map nat_of_ascii b with
  | c :: _ => if (Nat.leb 9 c) && (Nat.leb c 13) || (Nat.eqb c 32) then 1 else
    match List.map nat_of_ascii b with
    | 194 :: d :: _ => if (Nat.eqb d 133) || (Nat.eqb d 160) then 2 else 0
    | 225 :: 154 :: 128 :: _ => 3
    | 226 :: 128 :: d :: _ =>
        if (Nat.leb 128 d) && (Nat.leb d 138) || (Nat.eqb d 168) || (Nat.eqb d 169) || (Nat.eqb d 175) then 3 else 0
    | 226 :: 129 :: 159 :: _ => 3
    | 227 :: 128 :: 128 :: _ => 3
    | _ => 0
    end
  | [] => 0
  end.

Definition space_tail (r : list ascii) : nat :=
  match List.map nat_of_ascii r with
  | c :: _ =>
    (* an ASCII last byte is a rune of its own *)
    if Nat.ltb c 128 then
      (if (Nat.leb 9 c) && (Nat.leb c 13) || (Nat.eqb c 32) then 1 else 0) else
    match List.map nat_of_ascii r with
    | d :: 194 :: _ => if (Nat.eqb d 133) || (Nat.eqb d 160) then 2 else 0
    | 128 :: 154 :: 225 :: _ => 3
    | d :: 128 :: 226 :: _ =>
        if (Nat.leb 128 d) && (Nat.leb d 138) || (Nat.eqb d 168) || (Nat.eqb d 169) || (Nat.eqb d 175) then 3 else 0
    | 159 :: 129 :: 226 :: _ => 3
    | 128 :: 128 :: 227 :: _ => 3
    | _ => 0
    end
  | [] => 0
  end.

Fixpoint trim_left (fuel : nat) (b : list ascii) : list ascii :=
  match fuel with
  | O => b
  | S f => match space_head b with O => b | k => trim_left f (skipn k b) end
  end.

(** The same from the end, on the reversed bytes. *)
Fixpoint trim_rev (fuel : nat) (r : list ascii) : list ascii :=
  match fuel with
  | O => r
  | S f => match space_tail r with O => r | k => trim_rev f (skipn k r) end
  end.

(** [strings.TrimSpace(s)]: leading and trailing white space removed.
    Every round removes at least one byte, so the length is enough fuel. *)
Definition TrimSpace (s : string) : string :=
  let b := list_ascii_of_string s in
  let l := trim_left (length b) b in
  string_of_list_ascii (rev (trim_rev (length l) (rev l))).

(** [strconv.Itoa(n)]. *)
Fixpoint digits (fuel : nat) (n : Z) (acc : string) : string :=
  match fuel with
  | O => acc
  | S f =>
    let acc := String (ascii_of_nat (48 + Z.to_nat (n mod 10))) acc in
    if (n / 10 =? 0)%Z then acc else digits f (n / 10) acc
  end.

Definition Itoa (n : Z) : string :=
  if (n <? 0)%Z then ("-" ++ digits 64 (- n) "")%string else digits 64 n "".

Definition nl : string := String "010"%char EmptyString.

(** ** bufio.Scanner with ScanLines over a strings.Reader

    The input is cut at each newline; a final empty piece is not a line;
    a carriage return before the newline is dropped.  A piece of 65536
    bytes or more does not fit the scanner's largest buffer: [Scan]
    returns false there (ErrTooLong) and the lines after it are never
    seen. *)
Fixpoint split_nl (s : list ascii) : list (list ascii) :=
  match s with
  | [] => [[]]
  | c :: s' =>
    if Ascii.eqb c "010"%char then [] :: split_nl s'
    else match split_nl s' with
         | [] => [[c]]
         | l :: ls => (c :: l) :: ls
         end
  end.

Definition dropCR (l : list ascii) : list ascii :=
  match rev l with
  | c :: r => if Ascii.eqb c "013"%char then rev r else l
  | [] => l
  end.

Fixpoint take_fitting (segs : list (list ascii)) : list (list ascii) :=
  match segs with
  | [] => []
  | l :: ls => if (N.of_nat (length l) <? 65536)%N then l :: take_fitting ls else []
  end.

Definition drop_final (segs : list (list ascii)) : list (list ascii) :=
  match last segs [] with [] => removelast segs | _ => segs end.

Definition scan_lines (s : string) : list string :=
  List.map (fun l => string_of_list_ascii (dropCR l))
           (take_fitting (drop_final (split_nl (list_ascii_of_string s)))).

(** ** The namespace executor (util.NamespaceExecutor) and its commands

    The executor is not part of the embedded files; it is left open: each
    command's result and the known block devices are given. *)

Record command := { cmd_timeout : option Z; cmd_binary : string; cmd_args : list string }.

Section Executor.
Variable KernelDevice : Type.

Record executor := {
  run_command : command -> result string;
  GetKnownDevices : result (string -> option KernelDevice)
}.

Definition iscsiBinary : string := "iscsiadm".
Definition scanModeManual : string := "manual".
Definition scanModeAuto : string := "auto".
Definition ScanTimeout : Z := 10000000000.  (* 10 * time.Second *)

Variable ne : executor.

(** [ne.Execute(binary, opts)] and [ne.ExecuteWithTimeout(t, binary, opts)]. *)
Definition Execute (binary : string) (opts : list string) : command :=
  {| cmd_timeout := None; cmd_binary := binary; cmd_args := opts |}.
Definition ExecuteWithTimeout (t : Z) (binary : string) (opts : list string) : command :=
  {| cmd_timeout := Some t; cmd_binary := binary; cmd_args := opts |}.

(** DiscoverTarget (initiator.go:67-90): the error, [None] for nil. *)
Definition DiscoverTarget (ip target : string) : option string :=
  match run_command ne (Execute iscsiBinary ["-m"; "discovery"; "-t"; "sendtargets"; "-p"; ip]) with
  | Err e => Some e
  | Ok output =>
    if Contains output "Could not" then Some ("cannot discover target: " ++ output)%string
    else if negb (Contains output target) then
      Some ("cannot find target " ++ target ++ " in discovered targets " ++ output)%string
    else None
  end.

(** IsTargetLoggedIn (initiator.go:177-205). *)
Definition IsTargetLoggedIn (ip target : string) : bool :=
  match run_command ne (Execute iscsiBinary ["-m"; "session"]) with
  | Err _ => false
  | Ok output =>
    existsb (fun line => Contains line (ip ++ ":") &&
                         (HasSuffix line (" " ++ target) || Contains line (" " ++ target ++ " ")))
            (scan_lines output)
  end.

(** getIscsiNodeSessionScanMode (initiator.go:218-233). *)
Definition getIscsiNodeSessionScanMode (ip target : string) : command * (string * option string) :=
  let c := ExecuteWithTimeout ScanTimeout iscsiBinary
             ["-m"; "node"; "-T"; target; "-p"; ip; "-o"; "show"] in
  (c, match run_command ne c with
      | Err e => ("", Some e)
      | Ok output =>
        if Contains output "node.session.scan = manual" then (scanModeManual, None)
        else (scanModeAuto, None)
      end).

(** manualScanSession (initiator.go:207-216). *)
Definition manualScanSession (ip target : string) : command * option string :=
  let c := ExecuteWithTimeout ScanTimeout iscsiBinary
             ["-m"; "node"; "-T"; target; "-p"; ip; "--rescan"] in
  (c, match run_command ne c with Err e => Some e | Ok _ => None end).

(** LoginTarget (initiator.go:117-144): the commands run, in order, and
    the error. *)
Definition LoginTarget (ip target : string) : list command * option string :=
  let c1 := Execute iscsiBinary ["-m"; "node"; "-T"; target; "-p"; ip; "--login"] in
  match run_command ne c1 with
  | Err e => ([c1], Some e)
  | Ok _ =>
    let '(c2, (scanMode, err)) := getIscsiNodeSessionScanMode ip target in
    match err with
    | Some e => ([c1; c2], Some ("Failed to get node.session.scan mode: " ++ e)%string)
    | None =>
      if String.eqb scanMode scanModeManual then
        let '(c3, err) := manualScanSession ip target in
        match err with
        | Some e => ([c1; c2; c3], Some ("failed to manually rescan iscsi session of target "
                                         ++ target ++ ":" ++ ip ++ ": " ++ e)%string)
        | None => ([c1; c2; c3], None)
        end
      else ([c1; c2], None)
    end
  end.

Definition diskPrefix : string := "Attached scsi disk".
Definition stateLine : string := "State:".

(** The scanning loop of findScsiDevice (initiator.go:267-301) over the
    scanner's lines, from the flags [(inTarget, inIP, inLun)]: the value
    of [name] after the loop, or the error returned inside it. *)
Fixpoint find_scan (targetLine ipLine lunLine output : string) (lines : list string)
  (inTarget inIP inLun : bool) : result string :=
  match lines with
  | [] => Ok ""
  | line :: rest =>
    if negb inTarget && (Contains line (targetLine ++ " ") || HasSuffix line targetLine)
    then find_scan targetLine ipLine lunLine output rest true inIP inLun
    else if inTarget && Contains line ipLine
    then find_scan targetLine ipLine lunLine output rest inTarget true inLun
    else if inIP && Contains line lunLine
    then find_scan targetLine ipLine lunLine output rest inTarget inIP true
    else if inLun then
      if negb (Contains line diskPrefix)
      then Err ("invalid output format, cannot find disk in: " ++ line ++ nl ++ " " ++ output)%string
      else Ok (TrimSpace (TrimPrefix (TrimSpace (Split0 line stateLine)) diskPrefix))
    else find_scan targetLine ipLine lunLine output rest inTarget inIP inLun
  end.

(** What findScsiDevice asks the executor for. *)
Inductive device_call := CallSession | CallKnownDevices.

(** findScsiDevice (initiator.go:235-319). *)
Definition findScsiDevice (ip target : string) (lun : Z)
  : list device_call * result KernelDevice :=
  match run_command ne (Execute iscsiBinary ["-m"; "session"; "-P"; "3"]) with
  | Err e => ([CallSession], Err e)
  | Ok output =>
    match find_scan ("Target: " ++ target) (" " ++ ip ++ ":") ("Lun: " ++ Itoa lun) output
                    (scan_lines output) false false false with
    | Err e => ([CallSession], Err e)
    | Ok name =>
      if String.eqb name "" then ([CallSession], Err "cannot find iSCSI device")
      else
        match GetKnownDevices ne with
        | Err e => ([CallSession; CallKnownDevices], Err e)
        | Ok devices =>
          match devices name with
          | None => ([CallSession; CallKnownDevices],
                     Err ("cannot find kernel device for iSCSI device: " ++ name)%string)
          | Some dev => ([CallSession; CallKnownDevices], Ok dev)
          end
        end
    end
  end.

End Executor.

Arguments run_command {KernelDevice}.
Arguments GetKnownDevices {KernelDevice}.
Arguments DiscoverTarget {KernelDevice}.
Arguments IsTargetLoggedIn {KernelDevice}.
Arguments getIscsiNodeSessionScanMode {KernelDevice}.
Arguments manualScanSession {KernelDevice}.
Arguments LoginTarget {KernelDevice}.
Arguments findScsiDevice {KernelDevice}.

(** GetDevice (initiator.go:160-175).  [attempt i] is the result of the
    [i]-th call of findScsiDevice (the executor's answers change while
    the device appears).  The result: the number of calls, the number of
    [time.Sleep(DeviceWaitRetryInterval)], and [(dev, err)]. *)
Section GetDevice.
Variable KernelDevice : Type.
Variable attempt : nat -> result KernelDevice.

Fixpoint retry_loop (i remaining : nat) (dev : option KernelDevice) (err : option string)
  (sleeps : nat) : nat * nat * (option KernelDevice * option string) :=
  match remaining with
  | O => (i, sleeps, (dev, err))
  | S r =>
    match attempt i with
    | Ok d => (S i, sleeps, (Some d, None))
    | Err e => retry_loop (S i) r None (Some e) (S sleeps)
    end
  end.

Definition GetDevice (DeviceWaitRetryCounts : Z) : nat * nat * (option KernelDevice * option string) :=
  let '(calls, sleeps, (dev, err)) :=
    retry_loop 0 (Z.to_nat DeviceWaitRetryCounts) None None 0 in
  match err with
  | Some e => (calls, sleeps, (None, Some e))
  | None => (calls, sleeps, (dev, None))
  end.
End GetDevice.

Arguments retry_loop {KernelDevice}.
Arguments GetDevice {KernelDevice}.

(** ** path/filepath.Join and Clean *)







(** ** fs.FileInfo through encoding/json

    The [fs.FileInfo] of a file: its size and whether its mode is a
    regular file; [None] is the nil interface.  [os.Stat] returns an
    [*os.fileStat], whose fields are all unexported: [json.Marshal] gives
    [{}].  [fs.FileInfo] is an interface with methods, which
    [json.Unmarshal] cannot fill: every document but [null] is refused
    (the text is Go's for [{}]), and [null] sets the interface to nil. *)
Record file_stat := { st_size : Z; st_regular : bool }.

Definition FileInfo := option file_stat.

Definition fileinfo_marshal (v : FileInfo) : result string :=
  match v with None => Ok "null" | Some _ => Ok "{}" end.

Definition fileinfo_unmarshal (s : string) (dst : FileInfo) : result FileInfo :=
  if String.eqb s "{}" then Err "json: cannot unmarshal object into Go value of type fs.FileInfo"
  else Err ("json: cannot unmarshal " ++ s ++ " into Go value of type fs.FileInfo")%string.

Lemma fileinfo_marshal_no_nul : forall v s, fileinfo_marshal v = Ok s ->
  has_nul (list_ascii_of_string s) = false.
Proof. intros [v|] s Hs; injection Hs as <-; reflexivity. Qed.

#[global] Instance GoJSON_FileInfo : GoJSON FileInfo := {
  zero_value := None;
  marshal_value := fileinfo_marshal;
  unmarshal_value := fileinfo_unmarshal;
  null_into _ := None;
  null_into_zero := eq_refl;
  marshal_value_no_nul := fileinfo_marshal_no_nul
}.

(** ** CleanupScsiNodes (initiator.go:334-382)

    Every step runs in the namespace through ForkAndSwitchToNamespace.
    The stat of a node file is such a call with [T = fs.FileInfo], given
    by its environment; the other calls are given by their Go results:
    [None] when the call panics (an empty buffer on [done]), else the
    error of the [*interface{}] calls and the [*[]string] of [listFiles]. *)
Record cleanup_env := {
  ScsiNodesDirs : list string;
  stat_path : string -> option (option string);       (* NsStat(path), result dropped *)
  list_dir : string -> option (result (list string)); (* listFiles(targetDir) *)
  stat_file : string -> @env FileInfo;                (* NsStat(file) *)
  remove_file : string -> option (option string);     (* os.Remove(file) *)
  remove_parent : string -> option (option string)    (* os.Remove(filepath.Dir(file)) *)
}.

Section Cleanup.
Variable C : cleanup_env.




End Cleanup.

End Initiator.


(** ** Text shapes used in the statements about the initiator *)

Definition tab : string := String "009"%char EmptyString.

(** No line feed and no carriage return. *)
Definition no_eol (s : string) : bool :=
  forallb (fun c => negb (Ascii.eqb c "010"%char) && negb (Ascii.eqb c "013"%char))
          (list_ascii_of_string s).

(** A line the scanner hands over unchanged. *)
Definition line_ok (s : string) : bool := no_eol s && (N.of_nat (String.length s) <? 65536)%N.

(** Lines, each ended by a line feed. *)
Fixpoint join_lines (ls : list string) : string :=
  match ls with
  | [] => ""
  | l :: ls => (l ++ Initiator.nl ++ join_lines ls)%string
  end.

(** The characters of kernel disk names such as [sdb]. *)
Definition is_lower_alnum (c : ascii) : bool :=
  let n := nat_of_ascii c in (Nat.leb 48 n && Nat.leb n 57) || (Nat.leb 97 n && Nat.leb n 122).

(** The ASCII white space of [unicode.IsSpace], and the other ASCII
    characters. *)
Definition ascii_space (c : ascii) : bool :=
  let n := nat_of_ascii c in (Nat.leb 9 n && Nat.leb n 13) || Nat.eqb n 32.

Definition ascii_word (c : ascii) : bool :=
  Nat.ltb (nat_of_ascii c) 128 && negb (ascii_space c).

Definition head_word (l : list ascii) : bool :=
  match l with c :: _ => ascii_word c | [] => false end.

(** A line of [iscsiadm -m session -P 3] naming the disk of a LUN. *)
Definition attached_disk_line (name st : string) : string :=
  (tab ++ tab ++ "Attached scsi disk " ++ name ++ tab ++ tab ++ "State: " ++ st)%string.

(** ** Concrete calls and executors *)

(** A call on [/proc/42/ns] for any result type, every system call
    succeeding and [done] winning. *)
Definition fork_env {T : Type} `{GoJSON T} (logic : option (option T * option string))
  (opn : string -> open_result) : @env T := {|
  ns := "/proc/42/ns";
  toExecute := logic;
  sys_pipe := PipeOk 3 4;
  sys_fork := ForkOk 100;
  sys_open := opn;
  sys_setns := fun _ _ => None;
  sys_close := fun _ => None;
  write_plan := [];
  read_plan := [];
  timer_first := false;
  sys_kill := fun _ _ => None
|}.


(** A Go channel: encoding/json refuses it. *)
Definition chan_int := unit.

Definition chan_marshal (v : chan_int) : result string := Err "json: unsupported type: chan int".

Definition chan_unmarshal (s : string) (dst : chan_int) : result chan_int :=
  Err ("json: cannot unmarshal " ++ s ++ " into Go value of type chan int")%string.

Lemma chan_marshal_no_nul : forall v s, chan_marshal v = Ok s ->
  has_nul (list_ascii_of_string s) = false.
Proof. discriminate. Qed.

#[global] Instance GoJSON_chan : GoJSON chan_int := {
  zero_value := tt;
  marshal_value := chan_marshal;
  unmarshal_value := chan_unmarshal;
  null_into v := v;
  null_into_zero := eq_refl;
  marshal_value_no_nul := chan_marshal_no_nul
}.

(** An executor answering the listed argument lists, failing the others;
    the kernel devices are [sdb] = 8:16. *)
Definition answers (table : list (list string * result string)) (c : Initiator.command)
  : result string :=
  match find (fun p => if list_eq_dec string_dec (fst p) (Initiator.cmd_args c) then true else false)
             table with
  | Some (_, r) => r
  | None => Err "exit status 21"
  end.

Definition known_devices (name : string) : option (Z * Z) :=
  if String.eqb name "sdb" then Some (8%Z, 16%Z) else None.

Definition test_executor (table : list (list string * result string))
  : Initiator.executor (Z * Z) :=
  {| Initiator.run_command := answers table; Initiator.GetKnownDevices := Ok known_devices |}.

Definition test_target : string := "iqn.2019-10.io.longhorn:vol".

Definition session_line : string :=
  ("tcp: [463] 10.0.0.5:3260,1 " ++ test_target ++ " (non-flash)")%string.

Definition portal_line : string := (tab ++ "Current Portal: 10.0.0.5:3260,1")%string.

Definition disk_line : string :=
  (tab ++ tab ++ "Attached scsi disk sdb" ++ tab ++ tab ++ "State: running")%string.

(** [iscsiadm -m session -P 3] with one target, LUN 1 on disk [sdb]. *)
Definition session_p3 : string :=
  join_lines [("Target: " ++ test_target ++ " (non-flash)")%string; portal_line;
              (tab ++ tab ++ "scsi12 Channel 00 Id 0 Lun: 1")%string; disk_line].

(** The same with LUN 10 only. *)
Definition session_p3_lun10 : string :=
  join_lines [("Target: " ++ test_target)%string; portal_line;
              (tab ++ tab ++ "scsi12 Channel 00 Id 0 Lun: 10")%string; disk_line].

(** Target [vol2] has no session on the portal; [vol] listed after it has. *)
Definition session_p3_two : string :=
  join_lines [("Target: " ++ test_target ++ "2")%string; ("Target: " ++ test_target)%string;
              portal_line; (tab ++ tab ++ "scsi12 Channel 00 Id 0 Lun: 1")%string; disk_line].

(** The LUN line is followed by an unexpected line. *)
Definition session_p3_bad : string :=
  join_lines [("Target: " ++ test_target)%string; portal_line;
              (tab ++ tab ++ "scsi12 Channel 00 Id 0 Lun: 1")%string;
              (tab ++ tab ++ "Host Number: 12")%string].

(** The session appears on the third call of findScsiDevice. *)
Definition appearing_attempt (j : nat) : result (Z * Z) :=
  snd (Initiator.findScsiDevice
         (test_executor (if Nat.ltb j 2 then [] else [(["-m"; "session"; "-P"; "3"], Ok session_p3)]))
         "10.0.0.5" test_target 1).

(** A namespace where both node directories and the target directory
    exist and the target directory lists one file; every call succeeds. *)
Definition cleanup_test_env : Initiator.cleanup_env := {|
  Initiator.ScsiNodesDirs := ["/etc/iscsi/nodes/"; "/var/lib/iscsi/nodes/"];
  Initiator.stat_path := fun _ => Some None;
  Initiator.list_dir := fun d => Some (Ok [d]);
  Initiator.stat_file := fun _ => fork_env (Some (Some (Some {| Initiator.st_size := 0;
                                                                Initiator.st_regular := true |}), None))
                                           good_open;
  Initiator.remove_file := fun _ => Some None;
  Initiator.remove_parent := fun _ => Some None
|}.

(** ** Facts about the byte and string helpers *)

Definition write_plan_ok (plan : list write_step) : bool :=
  forallb (fun s => match s with WriteErr _ => false | WriteN _ => true end) plan.

Definition read_plan_ok (plan : list read_step) : bool :=
  forallb (fun s => match s with ReadErr _ => false | ReadN _ => true end) plan.

Lemma list_ascii_of_string_append : forall s1 s2,
  list_ascii_of_string (s1 ++ s2)%string = list_ascii_of_string s1 ++ list_ascii_of_string s2.
Proof. induction s1 as [|c s1 IH]; intros s2; simpl; [reflexivity | now rewrite IH]. Qed.

Lemma has_nul_app : forall a b, has_nul (a ++ b) = has_nul a || has_nul b.
Proof. intros a b. unfold has_nul. apply existsb_app. Qed.

Lemma has_nul_firstn : forall n l, has_nul l = false -> has_nul (firstn n l) = false.
Proof.
  induction n as [|n IH]; intros [|c l] Hl; simpl in *; try reflexivity.
  apply orb_false_iff in Hl as [Hc Hl]. now rewrite Hc, IH.
Qed.

Lemma has_nul_skipn : forall n l, has_nul l = false -> has_nul (skipn n l) = false.
Proof.
  induction n as [|n IH]; intros [|c l] Hl; simpl in *; try assumption; try reflexivity.
  apply orb_false_iff in Hl as [_ Hl]. now apply IH.
Qed.

Lemma errno_Error_no_nul : forall e, has_nul (list_ascii_of_string (errno_Error e)) = false.
Proof. intros []; reflexivity. Qed.

Lemma filepath_Join_no_nul : forall d x,
  has_nul (list_ascii_of_string d) = false -> has_nul (list_ascii_of_string x) = false ->
  has_nul (list_ascii_of_string (filepath_Join d x)) = false.
Proof.
  intros [|c d] x Hd Hx; [exact Hx|].
  unfold filepath_Join. rewrite list_ascii_of_string_append, has_nul_app, Hd. simpl.
  exact Hx.
Qed.

(** ** The child's writes reach the pipe *)

Lemma write_loop_complete : forall fd plan rest,
  write_plan_ok plan = true -> snd (write_loop fd plan rest) = rest.
Proof.
  intros fd plan; induction plan as [|[n|e] plan IH]; intros rest Hok;
    destruct rest as [|c rest]; simpl in *; try reflexivity; try discriminate.
  destruct (write_loop fd plan (skipn (Nat.min n (S (length rest))) (c :: rest)))
    as [ev w] eqn:Hw.
  simpl. specialize (IH (skipn (Nat.min n (S (length rest))) (c :: rest)) Hok).
  rewrite Hw in IH. simpl in IH. rewrite IH. apply firstn_skipn.
Qed.

(** ** The reader collects one NUL-terminated message *)

Lemma pipe_read_pending : forall plan rest closed len,
  read_plan_ok plan = true -> rest <> [] -> 0 < len ->
  exists n, pipe_read plan rest closed len = ReadReturns n /\
            1 <= n /\ n <= len /\ n <= length rest.
Proof.
  intros plan rest closed len Hok Hr Hl. unfold pipe_read.
  destruct rest as [|c rest]; [congruence|].
  destruct plan as [|[k|e] plan]; simpl in Hok; try discriminate;
    eexists; (split; [reflexivity|]); simpl length; lia.
Qed.

Lemma reader_loop_message : forall fuel fd plan pre buf bs,
  read_plan_ok plan = true -> has_nul pre = false -> has_nul buf = false ->
  length (pre ++ [NUL]) < fuel -> 0 < bs -> length buf <= bs ->
  exists ev, reader_loop fuel fd plan (pre ++ [NUL]) true buf bs = Some (ev, buf ++ pre ++ [NUL])
             /\ In (EvClose fd) ev.
Proof.
  induction fuel as [|fuel IH]; intros fd plan pre buf bs Hok Hpre Hbuf Hf Hbs Hlen;
    [simpl in Hf; lia|].
  cbn [reader_loop].
  remember (if Nat.eqb (length buf) bs then bs + bs else bs) as bs' eqn:Hbs'.
  assert (Hlt : length buf < bs') by
    (subst bs'; destruct (Nat.eqb_spec (length buf) bs); lia).
  destruct (pipe_read_pending plan (pre ++ [NUL]) true (bs' - length buf) Hok)
    as (n & Hn & Hn1 & Hn2 & Hn3); [now destruct pre | lia |].
  rewrite Hn.
  rewrite length_app in Hn3; simpl in Hn3.
  destruct (Nat.eq_dec n (length pre + 1)) as [Heq|Hne].
  - (* the read reaches the terminating NUL *)
    assert (Hall : firstn n (pre ++ [NUL]) = pre ++ [NUL])
      by (apply firstn_all2; rewrite length_app; simpl; lia).
    rewrite Hall, has_nul_app, has_nul_app. simpl (has_nul [NUL]).
    rewrite !orb_true_r.
    eexists; split; [reflexivity | simpl; auto].
  - assert (Hfirst : firstn n (pre ++ [NUL]) = firstn n pre)
      by (rewrite firstn_app; replace (n - length pre) with 0 by lia;
          simpl; apply app_nil_r).
    assert (Hskip : skipn n (pre ++ [NUL]) = skipn n pre ++ [NUL])
      by (rewrite skipn_app; replace (n - length pre) with 0 by lia; reflexivity).
    rewrite Hfirst, has_nul_app, Hbuf, has_nul_firstn by assumption.
    replace (Nat.eqb n 0) with false by (symmetry; apply Nat.eqb_neq; lia).
    simpl orb. cbv iota beta.
    rewrite Hskip.
    destruct (IH fd (tl plan) (skipn n pre) (buf ++ firstn n pre) bs') as (ev & Hev & Hin).
    + destruct plan as [|s plan]; [reflexivity|]; simpl in Hok |- *;
        apply andb_true_iff in Hok; tauto.
    + now apply has_nul_skipn.
    + now rewrite has_nul_app, Hbuf, has_nul_firstn.
    + rewrite length_app, length_skipn in *; simpl in *; lia.
    + lia.
    + rewrite length_app, length_firstn; lia.
    + rewrite Hev. exists (EvRead fd :: ev); split; [|simpl; right; exact Hin].
      rewrite <- app_assoc, (app_assoc (firstn n pre)), firstn_skipn. reflexivity.
Qed.

Section Proofs.
Context {T : Type} `{GoJSON T}.
Implicit Types E : @env T.

Lemma BytePtrFromString_Join : forall d x,
  has_nul (list_ascii_of_string d) = false -> has_nul (list_ascii_of_string x) = false ->
  BytePtrFromString (filepath_Join d x) = None.
Proof. intros d x Hd Hx. unfold BytePtrFromString. now rewrite filepath_Join_no_nul. Qed.

(** Past the path checks, the pipe and the fork, the call is the child and
    the parent of lines 44-157. *)
Lemma run_forked : forall E r w pid,
  has_nul (list_ascii_of_string (ns E)) = false ->
  sys_pipe E = PipeOk r w -> sys_fork E = ForkOk pid ->
  ForkAndSwitchToNamespace E =
    let ch := child_process E (filepath_Join (ns E) "mnt") (filepath_Join (ns E) "net") w in
    let '(pev, got, o) := parent_process E (Zpos pid) r w ch in
    {| r_outcome := o; r_parent := EvPipe :: EvFork :: pev;
       r_child := Some ch; r_received := got |}.
Proof.
  intros E r w pid Hns Hp Hf. unfold ForkAndSwitchToNamespace.
  rewrite !BytePtrFromString_Join by (assumption || reflexivity).
  now rewrite Hp, Hf.
Qed.

(** The framing: a text followed by NUL is decoded from its tag. *)
Lemma decode_framed : forall s,
  decode (list_ascii_of_string s ++ [NUL]) =
    if HasPrefix s "err:" then OErrMsg (TrimPrefix s "err:")
    else if HasPrefix s "ok:" then
      match json_Unmarshal (TrimPrefix s "ok:") zero_value with
      | Err e => OProtocol e
      | Ok u => OSuccess u
      end
    else OProtocol ("unknown response: " ++ s)%string.
Proof.
  intros s. unfold decode.
  destruct (list_ascii_of_string s ++ [NUL]) as [|c l] eqn:Hm;
    [destruct (list_ascii_of_string s); discriminate|].
  rewrite <- Hm, last_last, removelast_last, string_of_list_ascii_of_string.
  reflexivity.
Qed.

(** A child that finishes with a NUL-free text has its message delivered
    intact to the select when the pipe does not fail and [done] wins. *)
Lemma message_delivered : forall E r w ev out err,
  write_plan_ok (write_plan E) = true -> read_plan_ok (read_plan E) = true ->
  has_nul (list_ascii_of_string (child_text out err)) = false ->
  exists rev, reader E r (c_stream (child_finish E w ev out err))
                (c_closed (child_finish E w ev out err)) = Some (rev, child_message out err)
              /\ In (EvClose r) rev.
Proof.
  intros E r w ev out err Hw Hr Hnul. unfold child_finish.
  pose proof (write_loop_complete w (write_plan E) (child_message out err) Hw) as Hc.
  destruct (write_loop w (write_plan E) (child_message out err)) as [wev written].
  simpl in Hc |- *. subst written. unfold reader, child_message.
  destruct (reader_loop_message (S (length (list_ascii_of_string (child_text out err) ++ [NUL])))
              r (read_plan E) (list_ascii_of_string (child_text out err)) [] 256)
    as (rev & Hrev & Hin); auto; try (simpl; lia).
  exists rev. split; [exact Hrev | exact Hin].
Qed.

Lemma forked_finish : forall E r w pid ev out err,
  has_nul (list_ascii_of_string (ns E)) = false ->
  sys_pipe E = PipeOk r w -> sys_fork E = ForkOk pid ->
  child_process E (filepath_Join (ns E) "mnt") (filepath_Join (ns E) "net") w
    = child_finish E w ev out err ->
  write_plan_ok (write_plan E) = true -> read_plan_ok (read_plan E) = true ->
  timer_first E = false ->
  has_nul (list_ascii_of_string (child_text out err)) = false ->
  r_received (ForkAndSwitchToNamespace E) = Some (child_message out err) /\
  r_outcome (ForkAndSwitchToNamespace E) = decode (child_message out err).
Proof.
  intros E r w pid ev out err Hns Hp Hf Hch Hw Hr Ht Hnul.
  rewrite (run_forked E r w pid Hns Hp Hf). cbv zeta. rewrite Hch.
  destruct (message_delivered E r w ev out err Hw Hr Hnul) as (rev & Hrev & _).
  unfold parent_process. rewrite Hrev. unfold select_done. rewrite Ht.
  split; reflexivity.
Qed.

End Proofs.

Section Claims.
Context {T : Type} `{GoJSON T}.
Implicit Types E : @env T.

Lemma json_Marshal_no_nul : forall out s,
  json_Marshal out = Ok s -> has_nul (list_ascii_of_string s) = false.
Proof.
  intros [v|] s Hm; simpl in Hm; [eapply marshal_value_no_nul; exact Hm|].
  injection Hm as <-. reflexivity.
Qed.

Lemma child_text_ok : forall out s,
  json_Marshal out = Ok s -> child_text out None = ("ok:" ++ s)%string.
Proof. intros out s Hm. unfold child_text. now rewrite Hm. Qed.

Lemma child_text_ok_no_nul : forall out s,
  json_Marshal out = Ok s -> has_nul (list_ascii_of_string (child_text out None)) = false.
Proof.
  intros out s Hm. rewrite (child_text_ok out s Hm), list_ascii_of_string_append, has_nul_app.
  now rewrite (json_Marshal_no_nul out s Hm).
Qed.

Lemma decode_ok_text : forall s,
  decode (list_ascii_of_string ("ok:" ++ s) ++ [NUL]) =
    match json_Unmarshal s zero_value with
    | Err e => OProtocol e
    | Ok u => OSuccess u
    end.
Proof. intros s. rewrite decode_framed. cbn. reflexivity. Qed.

(** The child runs the logic when the switch succeeds and the logic returns. *)
Lemma child_process_exec : forall E m n w sev out err,
  switchNs E m n = (sev, None) -> toExecute E = Some (out, err) ->
  child_process E m n w = child_finish E w (sev ++ [EvExec]) out err.
Proof. intros E m n w sev out err Hs Hx. unfold child_process. now rewrite Hs, Hx. Qed.

(** Whatever the select received on [done] is what [decode] judged. *)
Lemma received_decoded : forall E buf,
  r_received (ForkAndSwitchToNamespace E) = Some buf ->
  r_outcome (ForkAndSwitchToNamespace E) = decode buf.
Proof.
  intros E buf. unfold ForkAndSwitchToNamespace.
  destruct (BytePtrFromString _); [discriminate|].
  destruct (BytePtrFromString _); [discriminate|].
  destruct (sys_pipe E) as [e|r w]; [discriminate|].
  destruct (sys_fork E) as [e|pid]; [discriminate|].
  unfold parent_process.
  destruct (select_done E _) as [b|].
  - simpl. congruence.
  - destruct (timeout_branch E _). simpl. discriminate.
Qed.

(** ** Helper facts on the traces *)

Lemma write_loop_events : forall fd plan rest ev,
  In ev (fst (write_loop fd plan rest)) -> ev = EvWrite fd.
Proof.
  intros fd plan; induction plan as [|[n|e] plan IH]; intros rest ev Hin;
    destruct rest as [|c rest]; simpl in Hin; try contradiction;
    try (destruct Hin as [<-|[]]; reflexivity).
  destruct (write_loop fd plan _) as [wev w'] eqn:Hw. simpl in Hin.
  destruct Hin as [<-|Hin]; [reflexivity|].
  apply (IH (skipn (Nat.min n (S (length rest))) (c :: rest))). now rewrite Hw.
Qed.

Lemma child_finish_events : forall E w ev out err,
  c_events (child_finish E w ev out err)
    = ev ++ fst (write_loop w (write_plan E) (child_message out err)) ++ [EvClose w; EvExitGroup]
  /\ c_closed (child_finish E w ev out err) = true.
Proof.
  intros. unfold child_finish. destruct (write_loop _ _ _). split; reflexivity.
Qed.

Lemma decode_terminal : forall buf, buf <> [] -> exists k, terminal_of (decode buf) = Some k.
Proof.
  intros [|c l] Hne; [congruence|]. unfold decode.
  destruct (negb _); [eexists; reflexivity|].
  destruct (HasPrefix _ "err:"); [eexists; reflexivity|].
  destruct (HasPrefix _ "ok:"); [|eexists; reflexivity].
  destruct (json_Unmarshal _ _); eexists; reflexivity.
Qed.

Lemma reader_loop_closed : forall fuel fd plan rest buf bs,
  read_plan_ok plan = true -> length rest < fuel -> 0 < bs -> length buf <= bs ->
  exists ev b, reader_loop fuel fd plan rest true buf bs = Some (ev, b) /\ In (EvClose fd) ev.
Proof.
  induction fuel as [|fuel IH]; intros fd plan rest buf bs Hok Hf Hbs Hlen; [lia|].
  cbn [reader_loop].
  remember (if Nat.eqb (length buf) bs then bs + bs else bs) as bs' eqn:Hbs'.
  assert (Hlt : length buf < bs') by
    (subst bs'; destruct (Nat.eqb_spec (length buf) bs); lia).
  destruct rest as [|c rest].
  - destruct plan as [|[k|e] plan]; simpl in Hok; try discriminate;
      do 2 eexists; (split; [reflexivity | simpl; auto]).
  - destruct (pipe_read_pending plan (c :: rest) true (bs' - length buf) Hok)
      as (n & Hn & Hn1 & Hn2 & Hn3); [discriminate | lia |].
    rewrite Hn.
    destruct (Nat.eqb n 0 || has_nul (buf ++ firstn n (c :: rest))).
    + do 2 eexists; split; [reflexivity | simpl; auto].
    + destruct (IH fd (tl plan) (skipn n (c :: rest)) (buf ++ firstn n (c :: rest)) bs')
        as (ev & b & Hev & Hin).
      * destruct plan as [|s plan]; [reflexivity|]; simpl in Hok |- *;
          apply andb_true_iff in Hok; tauto.
      * rewrite length_skipn; lia.
      * lia.
      * rewrite length_app, length_firstn; lia.
      * rewrite Hev. exists (EvRead fd :: ev), b. split; [reflexivity | simpl; auto].
Qed.

Lemma switchNs_closes : forall E m n fd,
  In (EvClose fd) (fst (switchNs E m n)) -> exists p, sys_open E p = OpenFd fd.
Proof.
  intros E m n fd Hin. unfold switchNs, open, setns, close_raw in Hin.
  destruct (sys_open E n) as [e|fd1] eqn:Ho1; simpl in Hin;
    [destruct Hin as [Hin|[]]; discriminate|].
  destruct (sys_setns E fd1 CLONE_NEWNET); simpl in Hin.
  { destruct Hin as [Hin|[Hin|[Hin|[]]]]; try discriminate. injection Hin as ->. eauto. }
  destruct (sys_close E fd1); simpl in Hin.
  { destruct Hin as [Hin|[Hin|[Hin|[]]]]; try discriminate. injection Hin as ->. eauto. }
  destruct (sys_open E m) as [e|fd2] eqn:Ho2; simpl in Hin.
  { destruct Hin as [Hin|[Hin|[Hin|[Hin|[]]]]]; try discriminate. injection Hin as ->. eauto. }
  destruct (sys_setns E fd2 CLONE_NEWNS); simpl in Hin;
    [|destruct (sys_close E fd2); simpl in Hin];
    repeat (destruct Hin as [Hin|Hin]; [try discriminate; injection Hin as ->; eauto|]);
    contradiction.
Qed.

(** ** C3 *)

(** C3: for a value [v] that encoding/json round-trips ([json.Marshal(&v)]
    is [s] and [json.Unmarshal(s)] into a zero [T] gives back [v]), the
    child frames it as [ok:<s>] then NUL, the parent's decoding of that
    frame yields [v], and a call whose logic returns [v] (after a
    successful switch) returns a non-nil pointer to [v] and a nil error
    when the reader wins the select and the pipe I/O does not fail. *)
Theorem C3_ok_roundtrip : forall E r w pid v s,
  has_nul (list_ascii_of_string (ns E)) = false ->
  sys_pipe E = PipeOk r w -> sys_fork E = ForkOk pid ->
  snd (switchNs E (filepath_Join (ns E) "mnt") (filepath_Join (ns E) "net")) = None ->
  toExecute E = Some (Some v, None) ->
  json_Marshal (Some v) = Ok s -> json_Unmarshal s zero_value = Ok v ->
  write_plan_ok (write_plan E) = true -> read_plan_ok (read_plan E) = true ->
  timer_first E = false ->
  child_message (Some v) None = list_ascii_of_string ("ok:" ++ s) ++ [NUL] /\
  decode (child_message (Some v) None) = OSuccess v /\
  go_result (r_outcome (ForkAndSwitchToNamespace E)) = Some (Some v, None).
Proof.
  intros E r w pid v s Hns Hp Hf Hsw Hx Hm Hu Hw Hr Ht.
  assert (Hmsg : child_message (Some v) None = list_ascii_of_string ("ok:" ++ s) ++ [NUL])
    by (unfold child_message; now rewrite (child_text_ok _ s Hm)).
  assert (Hdec : decode (child_message (Some v) None) = OSuccess v)
    by (rewrite Hmsg, decode_ok_text, Hu; reflexivity).
  split; [exact Hmsg|]. split; [exact Hdec|].
  destruct (switchNs E (filepath_Join (ns E) "mnt") (filepath_Join (ns E) "net"))
    as [sev serr] eqn:Hs. simpl in Hsw. subst serr.
  destruct (forked_finish E r w pid (sev ++ [EvExec]) (Some v) None Hns Hp Hf
              (child_process_exec E _ _ w sev _ _ Hs Hx) Hw Hr Ht
              (child_text_ok_no_nul _ s Hm)) as [_ Ho].
  now rewrite Ho, Hdec.
Qed.

(** ** C10 *)

(** C10: when the logic returns [(nil, nil)], the child sends [ok:null];
    the parent unmarshals [null] into a fresh zero [T] and the call returns
    a non-nil pointer to the zero value of [T] with a nil error. *)
Theorem C10_nil_result_becomes_zero : forall E r w pid,
  has_nul (list_ascii_of_string (ns E)) = false ->
  sys_pipe E = PipeOk r w -> sys_fork E = ForkOk pid ->
  snd (switchNs E (filepath_Join (ns E) "mnt") (filepath_Join (ns E) "net")) = None ->
  toExecute E = Some (None, None) ->
  write_plan_ok (write_plan E) = true -> read_plan_ok (read_plan E) = true ->
  timer_first E = false ->
  child_text None None = "ok:null" /\
  go_result (r_outcome (ForkAndSwitchToNamespace E)) = Some (Some zero_value, None).
Proof.
  intros E r w pid Hns Hp Hf Hsw Hx Hw Hr Ht.
  split; [reflexivity|].
  destruct (switchNs E (filepath_Join (ns E) "mnt") (filepath_Join (ns E) "net"))
    as [sev serr] eqn:Hs. simpl in Hsw. subst serr.
  destruct (forked_finish E r w pid (sev ++ [EvExec]) None None Hns Hp Hf
              (child_process_exec E _ _ w sev _ _ Hs Hx) Hw Hr Ht
              (child_text_ok_no_nul None "null" eq_refl)) as [_ Ho].
  rewrite Ho. unfold child_message. rewrite (child_text_ok None "null" eq_refl).
  rewrite decode_ok_text. unfold json_Unmarshal. simpl. now rewrite null_into_zero.
Qed.

(** ** C5 *)

(** C5: whenever the buffer received on [done] is non-empty and does not
    end in NUL, the call fails with "invalid termination character, not
    NUL", whatever precedes the last byte. *)
Theorem C5_bad_terminator : forall E buf,
  r_received (ForkAndSwitchToNamespace E) = Some buf ->
  buf <> [] -> last buf NUL <> NUL ->
  r_outcome (ForkAndSwitchToNamespace E) = OProtocol "invalid termination character, not NUL" /\
  go_result (r_outcome (ForkAndSwitchToNamespace E))
    = Some (None, Some "invalid termination character, not NUL").
Proof.
  intros E buf Hrcv Hne Hlast.
  rewrite (received_decoded E buf Hrcv). unfold decode.
  destruct buf as [|c l]; [congruence|].
  destruct (Ascii.eqb_spec (last (c :: l) NUL) NUL) as [Heq|_]; [congruence|].
  split; reflexivity.
Qed.

(** ** C9 *)

(** C9: an empty buffer received on [done] makes [buf[len(buf)-1]] panic,
    so the call returns no [( *T, error)] at all; the reader sends such a
    buffer when a read fails (at any point) and when the first read
    returns end of file. *)
Theorem C9_empty_buffer_panics :
  (forall E, r_received (ForkAndSwitchToNamespace E) = Some [] ->
     r_outcome (ForkAndSwitchToNamespace E) = OPanic /\
     go_result (r_outcome (ForkAndSwitchToNamespace E)) = None) /\
  (forall fuel fd e plan rest closed buf bs,
     exists ev, reader_loop (S fuel) fd (ReadErr e :: plan) rest closed buf bs = Some (ev, [])) /\
  (forall fuel fd plan bs, read_plan_ok plan = true ->
     exists ev, reader_loop (S fuel) fd plan [] true [] bs = Some (ev, [])).
Proof.
  split; [|split].
  - intros E Hrcv. rewrite (received_decoded E [] Hrcv). split; reflexivity.
  - intros. eexists. reflexivity.
  - intros fuel fd plan bs Hok. cbn [reader_loop].
    destruct plan as [|[k|e] plan]; simpl in Hok; try discriminate; eexists; reflexivity.
Qed.

(** ** C4 *)

(** C4: when the select takes [time.After] (the timer fires first, or the
    reader never delivers), the call returns the timeout error; it sends
    SIGINT to the child's pid, logs a failed kill as a warning without
    changing the error, and hands no buffer to the decoding branch. *)
Theorem C4_timeout : forall E r w pid,
  has_nul (list_ascii_of_string (ns E)) = false ->
  sys_pipe E = PipeOk r w -> sys_fork E = ForkOk pid ->
  (timer_first E = true \/
   let ch := child_process E (filepath_Join (ns E) "mnt") (filepath_Join (ns E) "net") w in
   reader E r (c_stream ch) (c_closed ch) = None) ->
  r_received (ForkAndSwitchToNamespace E) = None /\
  r_outcome (ForkAndSwitchToNamespace E) = OTimeout /\
  go_result (r_outcome (ForkAndSwitchToNamespace E))
    = Some (None, Some "ForkAndSwitchToNamespace timed out") /\
  In (EvKill (Zpos pid) SIGINT) (r_parent (ForkAndSwitchToNamespace E)) /\
  (forall e, sys_kill E (Zpos pid) SIGINT = Some e ->
     In (EvLog "warning" ("failed to kill setns process: " ++ errno_Error e))
        (r_parent (ForkAndSwitchToNamespace E))).
Proof.
  intros E r w pid Hns Hp Hf Hsel.
  rewrite (run_forked E r w pid Hns Hp Hf). cbv zeta in *.
  set (ch := child_process E _ _ w) in *.
  assert (Hnone : select_done E (reader E r (c_stream ch) (c_closed ch)) = None).
  { unfold select_done. destruct Hsel as [Ht|Hb].
    - destruct (reader E r _ _) as [[? ?]|]; [now rewrite Ht | reflexivity].
    - now rewrite Hb. }
  unfold parent_process. rewrite Hnone. unfold timeout_branch.
  destruct (sys_kill E (Zpos pid) SIGINT) as [e|] eqn:Hk; simpl.
  - repeat split; try (right; right; right; apply in_or_app; right; simpl; tauto).
    intros e' He'. injection He' as <-.
    right; right; right. apply in_or_app; right. simpl. tauto.
  - repeat split; try (right; right; right; apply in_or_app; right; simpl; tauto).
    intros e' He'. discriminate.
Qed.

(** ** C6 *)

(** C6: when the open, the setns or the close of the net handle fails in
    the child, [switchNs] returns at once: the child performs no mount
    step and never calls the logic, and the message it sends is
    [err:failed to <step> net namespace: <errno>] for the failing step. *)
Theorem C6_net_failure_stops_child : forall E mountNs netNs w sev m,
  mountNs <> netNs ->
  ((exists e, sys_open E netNs = OpenErr e /\
      sev = [EvOpen netNs] /\ m = Wrapf e "failed to open net namespace") \/
   (exists fd e, sys_open E netNs = OpenFd fd /\ sys_setns E fd CLONE_NEWNET = Some e /\
      sev = [EvOpen netNs; EvSetns fd CLONE_NEWNET; EvClose fd] /\
      m = Wrapf e "failed to setns net namespace") \/
   (exists fd e, sys_open E netNs = OpenFd fd /\ sys_setns E fd CLONE_NEWNET = None /\
      sys_close E fd = Some e /\
      sev = [EvOpen netNs; EvSetns fd CLONE_NEWNET; EvClose fd] /\
      m = Wrapf e "failed to close net namespace")) ->
  child_process E mountNs netNs w = child_finish E w sev None (Some m) /\
  (forall ev, In ev (c_events (child_process E mountNs netNs w)) ->
     ~ mount_step mountNs ev /\ ev <> EvExec) /\
  child_text None (Some m) = ("err:" ++ m)%string.
Proof.
  intros E mountNs netNs w sev m Hne Hcase.
  assert (Hch : child_process E mountNs netNs w = child_finish E w sev None (Some m)).
  { unfold child_process, switchNs, open, setns, close_raw.
    destruct Hcase as [(e & Ho & -> & ->) | [(fd & e & Ho & Hs & -> & ->)
                                          | (fd & e & Ho & Hs & Hc & -> & ->)]];
      rewrite Ho; simpl; try rewrite Hs; simpl; try rewrite Hc; reflexivity. }
  split; [exact Hch|]. split; [|reflexivity].
  intros ev Hin. rewrite Hch in Hin.
  destruct (child_finish_events E w sev None (Some m)) as [Hev _]. rewrite Hev in Hin.
  apply in_app_or in Hin as [Hin|Hin].
  - destruct Hcase as [(e & _ & -> & _) | [(fd & e & _ & _ & -> & _)
                                         | (fd & e & _ & _ & _ & -> & _)]];
      simpl in Hin; repeat (destruct Hin as [<-|Hin]; [simpl; split; [|discriminate];
                                                      first [exact (not_eq_sym Hne) | unfold CLONE_NEWNET, CLONE_NEWNS; lia | tauto]|]);
      contradiction.
  - apply in_app_or in Hin as [Hin|Hin].
    + apply write_loop_events in Hin. subst ev. simpl. split; [tauto | discriminate].
    + simpl in Hin. destruct Hin as [<-|[<-|[]]]; simpl; split; (tauto || discriminate).
Qed.

(** ** C1 *)

(** C1 (as amended): every call ends in exactly one way: a setup error
    (path, pipe or fork failure) with no child, or, once the child is
    forked, exactly one of successful decode, error decode, protocol
    error or timeout; calls whose select receives an empty buffer are
    left out. *)
Theorem C1_one_outcome_amended : forall E,
  r_received (ForkAndSwitchToNamespace E) <> Some [] ->
  (r_child (ForkAndSwitchToNamespace E) = None /\
     exists m, r_outcome (ForkAndSwitchToNamespace E) = OSetup m) \/
  (r_child (ForkAndSwitchToNamespace E) <> None /\
     exists k, terminal_of (r_outcome (ForkAndSwitchToNamespace E)) = Some k).
Proof.
  intros E. unfold ForkAndSwitchToNamespace.
  destruct (BytePtrFromString _); [left; simpl; eauto|].
  destruct (BytePtrFromString _); [left; simpl; eauto|].
  destruct (sys_pipe E) as [e|r w]; [left; simpl; eauto|].
  destruct (sys_fork E) as [e|pid]; [left; simpl; eauto|].
  unfold parent_process.
  destruct (select_done E _) as [b|];
    [|destruct (timeout_branch E _) as [tev o] eqn:Htb];
    simpl; intros Hrcv; right; (split; [intros Hc; discriminate Hc|]).
  - apply decode_terminal. intros ->. apply Hrcv. reflexivity.
  - unfold timeout_branch in Htb. destruct (sys_kill E _ _); injection Htb as _ <-; simpl; eauto.
Qed.

(** ** C2 *)

(** C2 (as amended): a missing [net] handle is not noticed before the
    fork; the child's open of it fails, so it sends
    [err:failed to open net namespace: <errno>] after no other namespace
    step, and when that message reaches the select first and the pipe I/O
    does not fail, the call returns a nil result with that error. *)
Theorem C2_missing_net_after_fork : forall E r w pid e,
  has_nul (list_ascii_of_string (ns E)) = false ->
  sys_pipe E = PipeOk r w -> sys_fork E = ForkOk pid ->
  sys_open E (filepath_Join (ns E) "net") = OpenErr e ->
  In EvFork (r_parent (ForkAndSwitchToNamespace E)) /\
  r_child (ForkAndSwitchToNamespace E)
    = Some (child_finish E w [EvOpen (filepath_Join (ns E) "net")] None
              (Some (Wrapf e "failed to open net namespace"))) /\
  (write_plan_ok (write_plan E) = true -> read_plan_ok (read_plan E) = true ->
   timer_first E = false ->
   r_outcome (ForkAndSwitchToNamespace E) = OErrMsg (Wrapf e "failed to open net namespace")).
Proof.
  intros E r w pid e Hns Hp Hf Ho.
  assert (Hch : child_process E (filepath_Join (ns E) "mnt") (filepath_Join (ns E) "net") w
                = child_finish E w [EvOpen (filepath_Join (ns E) "net")] None
                    (Some (Wrapf e "failed to open net namespace")))
    by (unfold child_process, switchNs, open; now rewrite Ho).
  split; [|split].
  - rewrite (run_forked E r w pid Hns Hp Hf). cbv zeta.
    destruct (parent_process _ _ _ _ _) as [[? ?] ?]. simpl. tauto.
  - rewrite (run_forked E r w pid Hns Hp Hf). cbv zeta.
    destruct (parent_process _ _ _ _ _) as [[? ?] ?]. simpl. now rewrite Hch.
  - intros Hw Hr Ht.
    destruct (forked_finish E r w pid _ None (Some (Wrapf e "failed to open net namespace"))
                Hns Hp Hf Hch Hw Hr Ht) as [_ Hout].
    + unfold child_text, Wrapf. rewrite !list_ascii_of_string_append, !has_nul_app.
      now rewrite errno_Error_no_nul.
    + rewrite Hout. unfold child_message. rewrite decode_framed. reflexivity.
Qed.

(** ** C7 *)

(** C7: when the fork fails, no child exists and the call returns
    "failed to fork: <errno>", but nothing closes the two descriptors of
    the pipe created just before: the parent's only actions are the pipe
    and the fork. *)
Theorem C7_fork_failure_keeps_pipe_open : forall E r w e,
  has_nul (list_ascii_of_string (ns E)) = false ->
  sys_pipe E = PipeOk r w -> sys_fork E = ForkErr e ->
  r_child (ForkAndSwitchToNamespace E) = None /\
  r_outcome (ForkAndSwitchToNamespace E) = OSetup (Wrapf e "failed to fork") /\
  r_parent (ForkAndSwitchToNamespace E) = [EvPipe; EvFork] /\
  ~ In (EvClose r) (r_parent (ForkAndSwitchToNamespace E)) /\
  ~ In (EvClose w) (r_parent (ForkAndSwitchToNamespace E)).
Proof.
  intros E r w e Hns Hp Hf. unfold ForkAndSwitchToNamespace.
  rewrite !BytePtrFromString_Join by (assumption || reflexivity).
  rewrite Hp, Hf. simpl.
  repeat split; intros [Hc|[Hc|[]]]; discriminate.
Qed.

(** ** C8 *)

(** C8 (as amended): after a successful fork the parent's first action is
    closing its copy of the write end, and its reader closes the read end
    whenever the reader loop ends without a read error (also after a
    timeout); the child, once it gets past the logic, closes the write end
    and exits as its last two actions, and never closes its copy of the
    read end itself. *)
Theorem C8_pipe_ends_amended : forall E r w pid ch,
  has_nul (list_ascii_of_string (ns E)) = false ->
  sys_pipe E = PipeOk r w -> sys_fork E = ForkOk pid ->
  r_child (ForkAndSwitchToNamespace E) = Some ch ->
  (exists rest, r_parent (ForkAndSwitchToNamespace E) = EvPipe :: EvFork :: EvClose w :: rest) /\
  (read_plan_ok (read_plan E) = true -> c_closed ch = true ->
     In (EvClose r) (r_parent (ForkAndSwitchToNamespace E))) /\
  (c_closed ch = true -> exists pre, c_events ch = pre ++ [EvClose w; EvExitGroup]) /\
  ((forall p, sys_open E p <> OpenFd r) -> r <> w -> ~ In (EvClose r) (c_events ch)).
Proof.
  intros E r w pid ch Hns Hp Hf Hch.
  rewrite (run_forked E r w pid Hns Hp Hf) in *. cbv zeta in *.
  set (ch0 := child_process E _ _ w) in *.
  destruct (parent_process E (Zpos pid) r w ch0) as [[pev got] o] eqn:Hpp.
  simpl in Hch. injection Hch as <-. simpl.
  assert (Hfin : c_closed ch0 = true ->
                 exists sev out err, ch0 = child_finish E w sev out err).
  { unfold ch0, child_process. destruct (switchNs _ _ _) as [sev [m|]]; [eauto|].
    destruct (toExecute E) as [[out err]|]; [eauto | simpl; discriminate]. }
  split; [|split; [|split]].
  - unfold parent_process in Hpp.
    destruct (select_done _ _); [|destruct (timeout_branch _ _)]; injection Hpp as <- _ _; eauto.
  - intros Hok Hcl.
    destruct (reader_loop_closed (S (length (c_stream ch0))) r (read_plan E) (c_stream ch0) [] 256)
      as (ev & b & Hrd & Hin); auto; try (simpl; lia).
    unfold parent_process, reader in Hpp. rewrite Hcl, Hrd in Hpp.
    destruct (select_done _ _); [|destruct (timeout_branch _ _)]; injection Hpp as <- _ _;
      simpl; right; right; right; auto using in_or_app.
  - intros Hcl. destruct (Hfin Hcl) as (sev & out & err & ->).
    destruct (child_finish_events E w sev out err) as [-> _].
    eexists. rewrite app_assoc. reflexivity.
  - intros Hopen Hrw Hin.
    assert (Hsw : forall sev serr, switchNs E (filepath_Join (ns E) "mnt")
                    (filepath_Join (ns E) "net") = (sev, serr) -> ~ In (EvClose r) sev).
    { intros sev serr Hs Hc. pose proof (switchNs_closes E (filepath_Join (ns E) "mnt")
                                          (filepath_Join (ns E) "net") r) as Hsc.
      rewrite Hs in Hsc. destruct (Hsc Hc) as [p Hp']. exact (Hopen p Hp'). }
    assert (Hfinish : forall sev out err, ~ In (EvClose r) sev ->
                        ~ In (EvClose r) (c_events (child_finish E w sev out err))).
    { intros sev out err Hs Hc. destruct (child_finish_events E w sev out err) as [Hev _].
      rewrite Hev in Hc. apply in_app_or in Hc as [Hc|Hc]; [exact (Hs Hc)|].
      apply in_app_or in Hc as [Hc|Hc].
      - apply write_loop_events in Hc. discriminate.
      - simpl in Hc. destruct Hc as [Hc|[Hc|[]]]; [injection Hc; congruence | discriminate]. }
    unfold ch0, child_process in Hin.
    destruct (switchNs _ _ _) as [sev [m|]] eqn:Hs.
    + exact (Hfinish sev None (Some m) (Hsw _ _ eq_refl) Hin).
    + assert (Hx : ~ In (EvClose r) (sev ++ [EvExec])).
      { intros Hc. apply in_app_or in Hc as [Hc|[Hc|[]]]; [exact (Hsw _ _ eq_refl Hc) | discriminate]. }
      destruct (toExecute E) as [[out err]|].
      * exact (Hfinish _ out err Hx Hin).
      * exact (Hx Hin).
Qed.

End Claims.

(** ** Concrete runs *)

(** C3 at [v = true]: the call returns [&true, nil]. *)
Lemma C3_witness :
  go_result (r_outcome (ForkAndSwitchToNamespace (good_env (Some (Some true, None)))))
    = Some (Some true, None).
Proof.
  refine (proj2 (proj2 (C3_ok_roundtrip (good_env (Some (Some true, None))) 3 4 100 true "true"
                          _ _ _ _ _ _ _ _ _ _))); reflexivity.
Defined.

(** C10 at [T = bool]: logic returning [(nil, nil)] yields [&false, nil]. *)
Lemma C10_witness :
  go_result (r_outcome (ForkAndSwitchToNamespace (good_env (Some (None, None)))))
    = Some (Some false, None).
Proof.
  refine (proj2 (C10_nil_result_becomes_zero (good_env (Some (None, None))) 3 4 100
                   _ _ _ _ _ _ _ _)); reflexivity.
Defined.

Lemma C5_witness :
  r_outcome (ForkAndSwitchToNamespace truncated_env)
    = OProtocol "invalid termination character, not NUL".
Proof.
  refine (proj1 (C5_bad_terminator truncated_env (list_ascii_of_string "ok:t") _ _ _)).
  - reflexivity.
  - simpl. intro Hc. discriminate Hc.
  - vm_compute. intro Hc. discriminate Hc.
Defined.

Lemma C9_witness : r_outcome (ForkAndSwitchToNamespace read_error_env) = OPanic.
Proof. exact (proj1 (proj1 C9_empty_buffer_panics read_error_env eq_refl)). Defined.

Lemma C4_witness :
  r_outcome (ForkAndSwitchToNamespace timeout_env) = OTimeout /\
  In (EvLog "warning" "failed to kill setns process: no such process")
     (r_parent (ForkAndSwitchToNamespace timeout_env)).
Proof.
  destruct (C4_timeout timeout_env 3 4 100 eq_refl eq_refl eq_refl (or_introl eq_refl))
    as (_ & Ho & _ & _ & Hlog).
  split; [exact Ho | exact (Hlog ESRCH eq_refl)].
Defined.

Lemma C6_witness :
  child_text None (Some (Wrapf ENOENT "failed to open net namespace"))
    = "err:failed to open net namespace: no such file or directory".
Proof.
  refine (proj2 (proj2 (C6_net_failure_stops_child nonet_env "/proc/42/ns/mnt" "/proc/42/ns/net" 4
                          [EvOpen "/proc/42/ns/net"] (Wrapf ENOENT "failed to open net namespace")
                          _ _))).
  - simpl. intro Hc. discriminate Hc.
  - left. exists ENOENT. split; [reflexivity | split; reflexivity].
Defined.

(** C1 as stated fails: a failed fork ends the call in none of the four
    outcomes, with the setup error "failed to fork". *)
Lemma C1_counterexample :
  r_outcome (ForkAndSwitchToNamespace fork_fail_env)
    = OSetup "failed to fork: resource temporarily unavailable" /\
  terminal_of (r_outcome (ForkAndSwitchToNamespace fork_fail_env)) = None.
Proof. split; reflexivity. Qed.

Lemma C1_witness :
  exists k, terminal_of (r_outcome (ForkAndSwitchToNamespace (good_env (Some (Some true, None)))))
              = Some k.
Proof.
  destruct (C1_one_outcome_amended (good_env (Some (Some true, None)))) as [(Hc & _)|(_ & Hk)].
  - vm_compute. intro Hc. discriminate Hc.
  - vm_compute in Hc. discriminate Hc.
  - exact Hk.
Defined.

(** C2 as stated fails: with the [net] handle missing a child is forked
    and the call returns the child's error, not a setup error. *)
Lemma C2_counterexample :
  r_child (ForkAndSwitchToNamespace nonet_env) <> None /\
  In EvFork (r_parent (ForkAndSwitchToNamespace nonet_env)) /\
  r_outcome (ForkAndSwitchToNamespace nonet_env)
    = OErrMsg "failed to open net namespace: no such file or directory".
Proof.
  split; [|split].
  - vm_compute. intro Hc. discriminate Hc.
  - simpl. tauto.
  - reflexivity.
Qed.

Lemma C2_witness :
  r_outcome (ForkAndSwitchToNamespace nonet_env)
    = OErrMsg "failed to open net namespace: no such file or directory".
Proof.
  exact (proj2 (proj2 (C2_missing_net_after_fork nonet_env 3 4 100 ENOENT
                         eq_refl eq_refl eq_refl eq_refl)) eq_refl eq_refl eq_refl).
Defined.

Lemma C7_witness :
  ~ In (EvClose 3) (r_parent (ForkAndSwitchToNamespace fork_fail_env)) /\
  ~ In (EvClose 4) (r_parent (ForkAndSwitchToNamespace fork_fail_env)).
Proof.
  destruct (C7_fork_failure_keeps_pipe_open fork_fail_env 3 4 EAGAIN eq_refl eq_refl eq_refl)
    as (_ & _ & _ & H3 & H4).
  split; assumption.
Defined.

(** C8 as stated fails: the child never closes its copy of the read end 3. *)
Lemma C8_counterexample :
  exists ch, r_child (ForkAndSwitchToNamespace (good_env (Some (Some true, None)))) = Some ch /\
             ~ In (EvClose 3) (c_events ch).
Proof.
  eexists; split; [reflexivity|].
  simpl. intros Hc. repeat (destruct Hc as [Hc|Hc]; [discriminate Hc|]). exact Hc.
Qed.

Lemma C8_witness :
  In (EvClose 3) (r_parent (ForkAndSwitchToNamespace (good_env (Some (Some true, None))))) /\
  ~ In (EvClose 3) (c_events (child_process (good_env (Some (Some true, None)))
                                "/proc/42/ns/mnt" "/proc/42/ns/net" 4)).
Proof.
  destruct (@C8_pipe_ends_amended bool GoJSON_bool (good_env (Some (Some true, None))) 3 4 100
              (child_process (good_env (Some (Some true, None))) "/proc/42/ns/mnt" "/proc/42/ns/net" 4)
              eq_refl eq_refl eq_refl eq_refl) as (_ & Hr & _ & Hc).
  split.
  - exact (Hr eq_refl eq_refl).
  - apply Hc.
    + intros p. unfold good_env, test_env, good_open; simpl.
      destruct (String.eqb p "/proc/42/ns/net"); intro Ho; discriminate Ho.
    + lia.
Defined.

(** * Further properties of the code *)

(** ** Helper facts on strings and byte streams *)

Lemma CutPrefix_app : forall p s, CutPrefix (p ++ s) p = Some s.
Proof.
  induction p as [|c p IH]; intros s; [destruct s; reflexivity|].
  simpl. rewrite Ascii.eqb_refl. apply IH.
Qed.

Lemma HasPrefix_app : forall p s, HasPrefix (p ++ s) p = true.
Proof. intros p s. unfold HasPrefix. now rewrite CutPrefix_app. Qed.

Lemma TrimPrefix_app : forall p s, TrimPrefix (p ++ s) p = s.
Proof. intros p s. unfold TrimPrefix. now rewrite CutPrefix_app. Qed.

Lemma write_loop_prefix : forall fd plan rest,
  exists sfx, snd (write_loop fd plan rest) ++ sfx = rest.
Proof.
  intros fd plan; induction plan as [|[n|e] plan IH]; intros rest;
    destruct rest as [|c rest]; simpl; try (exists []; reflexivity);
    try (exists []; rewrite app_nil_r; reflexivity);
    try (exists (c :: rest); reflexivity).
  destruct (write_loop fd plan (skipn (Nat.min n (S (length rest))) (c :: rest)))
    as [ev w] eqn:Hw.
  destruct (IH (skipn (Nat.min n (S (length rest))) (c :: rest))) as [sfx Hs].
  rewrite Hw in Hs. simpl in Hs. exists sfx. simpl.
  rewrite <- app_assoc, Hs. apply firstn_skipn.
Qed.

Lemma reader_loop_prefix : forall fuel fd plan rest closed buf bs ev b,
  reader_loop fuel fd plan rest closed buf bs = Some (ev, b) ->
  b = [] \/ exists sfx, b ++ sfx = buf ++ rest.
Proof.
  induction fuel as [|fuel IH]; intros fd plan rest closed buf bs ev b Hr; [discriminate|].
  cbn [reader_loop] in Hr.
  destruct (pipe_read _ _ _ _) as [|e|n]; [discriminate| |].
  - injection Hr as _ <-. now left.
  - destruct (Nat.eqb n 0 || has_nul (buf ++ firstn n rest)).
    + injection Hr as _ <-. right. exists (skipn n rest).
      rewrite <- app_assoc, firstn_skipn. reflexivity.
    + destruct (reader_loop fuel fd (tl plan) (skipn n rest) closed (buf ++ firstn n rest) _)
        as [[ev' b']|] eqn:Hrec; [|discriminate].
      injection Hr as _ <-.
      destruct (IH _ _ _ _ _ _ _ _ Hrec) as [Hb|[sfx Hs]]; [now left|].
      right. exists sfx. rewrite Hs, <- app_assoc, firstn_skipn. reflexivity.
Qed.

Section Transport.
Context {T : Type} `{GoJSON T}.
Implicit Types E : @env T.

(** Whatever reached the select on [done] was read from the child's pipe. *)
Lemma received_from_stream : forall E buf,
  r_received (ForkAndSwitchToNamespace E) = Some buf ->
  exists ch, r_child (ForkAndSwitchToNamespace E) = Some ch /\
    (buf = [] \/ exists sfx, buf ++ sfx = c_stream ch).
Proof.
  intros E buf. unfold ForkAndSwitchToNamespace.
  destruct (BytePtrFromString _); [discriminate|].
  destruct (BytePtrFromString _); [discriminate|].
  destruct (sys_pipe E) as [e|r w]; [discriminate|].
  destruct (sys_fork E) as [e|pid]; [discriminate|].
  set (ch := child_process E _ _ w).
  unfold parent_process, select_done.
  destruct (reader E r (c_stream ch) (c_closed ch)) as [[ev b]|] eqn:Hrd.
  - destruct (timer_first E).
    + destruct (timeout_branch E _). simpl. discriminate.
    + simpl. intros Hb. injection Hb as <-. exists ch. split; [reflexivity|].
      unfold reader in Hrd. apply reader_loop_prefix in Hrd. exact Hrd.
  - destruct (timeout_branch E _). simpl. discriminate.
Qed.

(** A successful decode of a [fs.FileInfo] is the nil interface. *)
Lemma decode_fileinfo_nil : forall buf v,
  @decode Initiator.FileInfo _ buf = OSuccess v -> v = None.
Proof.
  intros buf v. unfold decode.
  destruct buf as [|c l]; [discriminate|].
  destruct (negb _); [discriminate|].
  destruct (HasPrefix _ "err:"); [discriminate|].
  destruct (HasPrefix _ "ok:"); [|discriminate].
  unfold json_Unmarshal.
  destruct (String.eqb _ "null").
  - intros Hv. injection Hv as <-. reflexivity.
  - simpl. unfold Initiator.fileinfo_unmarshal. destruct (String.eqb _ "{}"); discriminate.
Qed.

Lemma run_fileinfo_nil : forall (E : @env Initiator.FileInfo) v,
  r_outcome (ForkAndSwitchToNamespace E) = OSuccess v -> v = None.
Proof.
  intros E v. unfold ForkAndSwitchToNamespace.
  destruct (BytePtrFromString _); [discriminate|].
  destruct (BytePtrFromString _); [discriminate|].
  destruct (sys_pipe E) as [e|r w]; [discriminate|].
  destruct (sys_fork E) as [e|pid]; [discriminate|].
  unfold parent_process.
  destruct (select_done E _) as [b|].
  - simpl. apply decode_fileinfo_nil.
  - unfold timeout_branch. destruct (sys_kill E _ _); simpl; discriminate.
Qed.

End Transport.

(** ** switchNs and the child *)

Section SwitchAndChild.
Context {T : Type} `{GoJSON T}.
Implicit Types E : @env T.

(** X1: when [switchNs] succeeds it has done exactly six steps in this
    order: open, setns and close of the net handle, then the same for the
    mount handle. *)
Theorem switchNs_success_trace : forall E m n ev,
  switchNs E m n = (ev, None) ->
  exists fd1 fd2, sys_open E n = OpenFd fd1 /\ sys_open E m = OpenFd fd2 /\
    ev = [EvOpen n; EvSetns fd1 CLONE_NEWNET; EvClose fd1;
          EvOpen m; EvSetns fd2 CLONE_NEWNS; EvClose fd2].
Proof.
  intros E m n ev Hs. unfold switchNs, open, setns, close_raw in Hs.
  destruct (sys_open E n) as [e|fd1] eqn:H1; simpl in Hs; [discriminate|].
  destruct (sys_setns E fd1 CLONE_NEWNET); simpl in Hs; [discriminate|].
  destruct (sys_close E fd1); simpl in Hs; [discriminate|].
  destruct (sys_open E m) as [e|fd2] eqn:H2; simpl in Hs; [discriminate|].
  destruct (sys_setns E fd2 CLONE_NEWNS); simpl in Hs; [discriminate|].
  destruct (sys_close E fd2); simpl in Hs; [discriminate|].
  injection Hs as <-. eauto 6.
Qed.

(** X2: [switchNs] leaks no namespace handle: on every path, each
    descriptor it opens is closed before it returns. *)
Theorem switchNs_closes_opened : forall E m n p fd,
  In (EvOpen p) (fst (switchNs E m n)) -> sys_open E p = OpenFd fd ->
  In (EvClose fd) (fst (switchNs E m n)).
Proof.
  intros E m n p fd Hin Hp. unfold switchNs, open, setns, close_raw in *.
  destruct (sys_open E n) as [e|fd1] eqn:H1; simpl in *.
  { destruct Hin as [Hin|[]]. injection Hin as ->. congruence. }
  destruct (sys_setns E fd1 CLONE_NEWNET); simpl in *.
  { destruct Hin as [Hin|[Hin|[Hin|[]]]]; try discriminate. injection Hin as ->.
    rewrite H1 in Hp. injection Hp as ->. tauto. }
  destruct (sys_close E fd1); simpl in *.
  { destruct Hin as [Hin|[Hin|[Hin|[]]]]; try discriminate. injection Hin as ->.
    rewrite H1 in Hp. injection Hp as ->. tauto. }
  destruct (sys_open E m) as [e|fd2] eqn:H2; simpl in *.
  { destruct Hin as [Hin|[Hin|[Hin|[Hin|[]]]]]; try discriminate; injection Hin as ->.
    - rewrite H1 in Hp. injection Hp as ->. tauto.
    - congruence. }
  destruct (sys_setns E fd2 CLONE_NEWNS); simpl in *;
    [|destruct (sys_close E fd2); simpl in *];
    (destruct Hin as [Hin|[Hin|[Hin|[Hin|Hin]]]]; try discriminate;
     [injection Hin as ->; rewrite H1 in Hp; injection Hp as ->; tauto
     |injection Hin as ->; rewrite H2 in Hp; injection Hp as ->; tauto
     |repeat (destruct Hin as [Hin|Hin]; [discriminate|]); contradiction]).
Qed.


(** X4: when the logic returns an error (with or without a result), the
    call returns a nil result and exactly that error, provided the switch
    succeeds, the error text holds no NUL byte, the pipe I/O does not
    fail and [done] wins the select. *)
Theorem logic_error_returned : forall E r w pid out e,
  has_nul (list_ascii_of_string (ns E)) = false ->
  sys_pipe E = PipeOk r w -> sys_fork E = ForkOk pid ->
  snd (switchNs E (filepath_Join (ns E) "mnt") (filepath_Join (ns E) "net")) = None ->
  toExecute E = Some (out, Some e) -> has_nul (list_ascii_of_string e) = false ->
  write_plan_ok (write_plan E) = true -> read_plan_ok (read_plan E) = true ->
  timer_first E = false ->
  go_result (r_outcome (ForkAndSwitchToNamespace E)) = Some (None, Some e).
Proof.
  intros E r w pid out e Hns Hp Hf Hsw Hx He Hw Hr Ht.
  destruct (switchNs E (filepath_Join (ns E) "mnt") (filepath_Join (ns E) "net"))
    as [sev serr] eqn:Hs. simpl in Hsw. subst serr.
  destruct (forked_finish E r w pid (sev ++ [EvExec]) out (Some e) Hns Hp Hf
              (child_process_exec E _ _ w sev _ _ Hs Hx) Hw Hr Ht) as [_ Ho].
  - simpl. exact He.
  - rewrite Ho. unfold child_message, child_text. rewrite decode_framed.
    rewrite HasPrefix_app, TrimPrefix_app. reflexivity.
Qed.

(** X5: when the logic returns a result that encoding/json cannot encode,
    the call returns a nil result and the encoder's error (same
    conditions as X4). *)
Theorem marshal_error_returned : forall E r w pid v m,
  has_nul (list_ascii_of_string (ns E)) = false ->
  sys_pipe E = PipeOk r w -> sys_fork E = ForkOk pid ->
  snd (switchNs E (filepath_Join (ns E) "mnt") (filepath_Join (ns E) "net")) = None ->
  toExecute E = Some (Some v, None) -> marshal_value v = Err m ->
  has_nul (list_ascii_of_string m) = false ->
  write_plan_ok (write_plan E) = true -> read_plan_ok (read_plan E) = true ->
  timer_first E = false ->
  go_result (r_outcome (ForkAndSwitchToNamespace E)) = Some (None, Some m).
Proof.
  intros E r w pid v m Hns Hp Hf Hsw Hx Hm Hnul Hw Hr Ht.
  destruct (switchNs E (filepath_Join (ns E) "mnt") (filepath_Join (ns E) "net"))
    as [sev serr] eqn:Hs. simpl in Hsw. subst serr.
  assert (Htext : child_text (Some v) None = ("err:" ++ m)%string)
    by (unfold child_text; simpl; now rewrite Hm).
  destruct (forked_finish E r w pid (sev ++ [EvExec]) (Some v) None Hns Hp Hf
              (child_process_exec E _ _ w sev _ _ Hs Hx) Hw Hr Ht) as [_ Ho].
  - rewrite Htext. simpl. exact Hnul.
  - rewrite Ho. unfold child_message. rewrite Htext, decode_framed.
    rewrite HasPrefix_app, TrimPrefix_app. reflexivity.
Qed.

(** X6: a logic that never returns does not hang the caller: the child
    writes nothing and keeps the pipe open, the reader blocks, and the
    call ends in the timeout error after sending SIGINT to the child
    (when the switch succeeds and no read fails). *)
Theorem hanging_logic_times_out : forall E r w pid,
  has_nul (list_ascii_of_string (ns E)) = false ->
  sys_pipe E = PipeOk r w -> sys_fork E = ForkOk pid ->
  snd (switchNs E (filepath_Join (ns E) "mnt") (filepath_Join (ns E) "net")) = None ->
  toExecute E = None -> read_plan_ok (read_plan E) = true ->
  r_received (ForkAndSwitchToNamespace E) = None /\
  go_result (r_outcome (ForkAndSwitchToNamespace E))
    = Some (None, Some "ForkAndSwitchToNamespace timed out") /\
  In (EvKill (Zpos pid) SIGINT) (r_parent (ForkAndSwitchToNamespace E)).
Proof.
  intros E r w pid Hns Hp Hf Hsw Hx Hr.
  rewrite (run_forked E r w pid Hns Hp Hf). cbv zeta.
  unfold child_process.
  destruct (switchNs E (filepath_Join (ns E) "mnt") (filepath_Join (ns E) "net"))
    as [sev serr] eqn:Hs. simpl in Hsw. subst serr. rewrite Hx.
  unfold parent_process, reader. simpl c_stream. simpl c_closed.
  assert (Hblk : reader_loop 1 r (read_plan E) [] false [] 256 = None).
  { cbn [reader_loop]. unfold pipe_read.
    destruct (read_plan E) as [|[k|e] plan]; simpl in Hr; try discriminate; reflexivity. }
  simpl length. rewrite Hblk. unfold select_done, timeout_branch.
  destruct (sys_kill E (Zpos pid) SIGINT); simpl; (split; [reflexivity | split; [reflexivity|]]);
    right; right; right; simpl; tauto.
Qed.

(** X7: the buffer handed to the decoding branch is never invented: it is
    empty or a prefix of the message the child built, [err:<switch
    error>] after a failed switch, else the encoding of what the logic
    returned. *)
Theorem received_is_message_prefix : forall E buf,
  r_received (ForkAndSwitchToNamespace E) = Some buf ->
  buf = [] \/
  exists out err sfx, buf ++ sfx = child_message out err /\
    ((exists sev m, switchNs E (filepath_Join (ns E) "mnt") (filepath_Join (ns E) "net")
                    = (sev, Some m) /\ out = None /\ err = Some m) \/
     (snd (switchNs E (filepath_Join (ns E) "mnt") (filepath_Join (ns E) "net")) = None /\
      toExecute E = Some (out, err))).
Proof.
  intros E buf Hrcv.
  destruct (received_from_stream E buf Hrcv) as (ch & Hch & [Hnil|[sfx Hs]]); [now left|].
  revert Hch. unfold ForkAndSwitchToNamespace.
  destruct (BytePtrFromString _); [discriminate|].
  destruct (BytePtrFromString _); [discriminate|].
  destruct (sys_pipe E) as [e|r w]; [discriminate|].
  destruct (sys_fork E) as [e|pid]; [discriminate|].
  destruct (parent_process _ _ _ _ _) as [[? ?] ?]. simpl. intros Hch. injection Hch as Hch.
  unfold child_process in Hch.
  destruct (switchNs E _ _) as [sev [m|]] eqn:Hsw.
  - subst ch. unfold child_finish in Hs.
    destruct (write_loop_prefix w (write_plan E) (child_message None (Some m))) as [sfx2 Hw].
    destruct (write_loop w (write_plan E) (child_message None (Some m))) as [wev written].
    simpl in Hs, Hw. right. exists None, (Some m), (sfx ++ sfx2). split.
    + rewrite app_assoc, Hs. exact Hw.
    + left. eauto.
  - destruct (toExecute E) as [[out err]|] eqn:Hx.
    + subst ch. unfold child_finish in Hs.
      destruct (write_loop_prefix w (write_plan E) (child_message out err)) as [sfx2 Hw].
      destruct (write_loop w (write_plan E) (child_message out err)) as [wev written].
      simpl in Hs, Hw. right. exists out, err, (sfx ++ sfx2). split.
      * rewrite app_assoc, Hs. exact Hw.
      * right. split; reflexivity.
    + subst ch. simpl in Hs. left. now destruct buf.
Qed.

End SwitchAndChild.

(** X8: a ForkAndSwitchToNamespace call whose result type is
    [fs.FileInfo] never delivers a file's information: when it succeeds,
    the result points to the nil interface. *)
Theorem fileinfo_call_yields_nil : forall (E : @env Initiator.FileInfo) p e,
  go_result (r_outcome (ForkAndSwitchToNamespace E)) = Some (Some p, e) ->
  e = None /\ p = None.
Proof.
  intros E p e. destruct (r_outcome (ForkAndSwitchToNamespace E)) as [v|m|m| |m|] eqn:Ho;
    simpl; try discriminate.
  intros Hv. injection Hv as <- <-. split; [reflexivity|].
  exact (run_fileinfo_nil E v Ho).
Qed.

(** ** CleanupScsiNodes *)



(** ** Facts about the Go string functions and the line scanner *)

Import Initiator.

Lemma sapp_assoc : forall a b c : string, ((a ++ b) ++ c = a ++ b ++ c)%string.
Proof. induction a as [|x a IH]; intros b c; simpl; [reflexivity | now rewrite IH]. Qed.

Lemma slen_app : forall a b : string,
  String.length (a ++ b) = String.length a + String.length b.
Proof. induction a as [|x a IH]; intros b; simpl; [reflexivity | now rewrite IH]. Qed.

Lemma length_list_ascii : forall s, length (list_ascii_of_string s) = String.length s.
Proof. induction s as [|x s IH]; simpl; [reflexivity | now rewrite IH]. Qed.

Lemma CutPrefix_spec : forall s p r, CutPrefix s p = Some r -> s = (p ++ r)%string.
Proof.
  intros s p; revert s; induction p as [|c p IH]; intros [|d s] r Hc; simpl in Hc;
    try discriminate; try (injection Hc as <-; reflexivity).
  destruct (Ascii.eqb_spec c d) as [<-|]; [|discriminate].
  simpl. f_equal. exact (IH s r Hc).
Qed.

Lemma Contains_unfold : forall s sub,
  Contains s sub = HasPrefix s sub || match s with EmptyString => false | String _ s' => Contains s' sub end.
Proof. intros [|c s] sub; reflexivity. Qed.

Lemma Contains_app_mid : forall a b c, Contains (a ++ b ++ c) b = true.
Proof.
  induction a as [|x a IH]; intros b c.
  - change ("" ++ b ++ c)%string with (b ++ c)%string.
    rewrite Contains_unfold, HasPrefix_app. reflexivity.
  - simpl. rewrite IH. apply orb_true_r.
Qed.

Lemma Contains_spec : forall s t, Contains s t = true -> exists a b, s = (a ++ t ++ b)%string.
Proof.
  induction s as [|c s IH]; intros t Hc; rewrite Contains_unfold in Hc.
  - rewrite orb_false_r in Hc. unfold HasPrefix in Hc.
    destruct (CutPrefix "" t) as [r|] eqn:Hcut; [|discriminate].
    exists "", r. simpl. exact (CutPrefix_spec _ _ _ Hcut).
  - apply orb_true_iff in Hc as [Hp|Hc].
    + unfold HasPrefix in Hp. destruct (CutPrefix (String c s) t) as [r|] eqn:Hcut; [|discriminate].
      exists "", r. simpl. exact (CutPrefix_spec _ _ _ Hcut).
    + destruct (IH t Hc) as (a & b & ->). exists (String c a), b. reflexivity.
Qed.

Lemma Contains_suffix : forall s x y, Contains s (x ++ y) = true -> Contains s y = true.
Proof.
  intros s x y Hc. destruct (Contains_spec s (x ++ y) Hc) as (a & b & ->).
  rewrite sapp_assoc, <- (sapp_assoc a x). apply Contains_app_mid.
Qed.

Lemma substring_app : forall a b n, substring (String.length a) n (a ++ b) = substring 0 n b.
Proof. induction a as [|x a IH]; intros b n; simpl; [reflexivity | apply IH]. Qed.

Lemma substring_full : forall b, substring 0 (String.length b) b = b.
Proof. induction b as [|x b IH]; simpl; [reflexivity | now rewrite IH]. Qed.

Lemma HasSuffix_app : forall a b, HasSuffix (a ++ b) b = true.
Proof.
  intros a b. unfold HasSuffix. rewrite slen_app.
  replace (String.length a + String.length b - String.length b) with (String.length a) by lia.
  rewrite substring_app, substring_full, String.eqb_refl, andb_true_r.
  apply Nat.leb_le. lia.
Qed.

Lemma split_nl_app_nl : forall l s,
  (forall c, In c l -> Ascii.eqb c "010"%char = false) ->
  split_nl (l ++ "010"%char :: s) = l :: split_nl s.
Proof.
  induction l as [|c l IH]; intros s Hl; [reflexivity|].
  simpl. rewrite (Hl c (or_introl eq_refl)).
  rewrite IH by (intros d Hd; apply Hl; right; exact Hd). reflexivity.
Qed.

Lemma split_nl_nonempty : forall s, split_nl s <> [].
Proof.
  intros [|c s]; simpl; [discriminate|].
  destruct (Ascii.eqb c "010"%char); [discriminate|].
  destruct (split_nl s); discriminate.
Qed.

Lemma drop_final_cons : forall l segs, segs <> [] -> drop_final (l :: segs) = l :: drop_final segs.
Proof.
  intros l [|x segs] Hne; [congruence|]. unfold drop_final.
  change (last (l :: x :: segs) []) with (last (x :: segs) []).
  change (removelast (l :: x :: segs)) with (l :: removelast (x :: segs)).
  destruct (last (x :: segs) []); reflexivity.
Qed.

Lemma dropCR_noCR : forall l, (forall c, In c l -> Ascii.eqb c "013"%char = false) -> dropCR l = l.
Proof.
  intros l Hl. unfold dropCR. destruct (rev l) as [|c r] eqn:Hr; [reflexivity|].
  rewrite (Hl c); [reflexivity|]. apply in_rev. rewrite Hr. left. reflexivity.
Qed.

Lemma no_eol_chars : forall s, no_eol s = true ->
  forall c, In c (list_ascii_of_string s) ->
  Ascii.eqb c "010"%char = false /\ Ascii.eqb c "013"%char = false.
Proof.
  intros s Hs c Hc. unfold no_eol in Hs. rewrite forallb_forall in Hs.
  specialize (Hs c Hc). apply andb_true_iff in Hs as [H1 H2].
  apply negb_true_iff in H1, H2. tauto.
Qed.

Lemma scan_lines_cons : forall l s, line_ok l = true ->
  scan_lines (l ++ nl ++ s) = l :: scan_lines s.
Proof.
  intros l s Hok. unfold line_ok in Hok. apply andb_true_iff in Hok as [Heol Hlen].
  unfold scan_lines. rewrite !list_ascii_of_string_append.
  change (list_ascii_of_string nl ++ list_ascii_of_string s)
    with ("010"%char :: list_ascii_of_string s).
  rewrite split_nl_app_nl by (intros c Hc; exact (proj1 (no_eol_chars l Heol c Hc))).
  rewrite drop_final_cons by apply split_nl_nonempty.
  simpl take_fitting. rewrite length_list_ascii, Hlen. simpl map.
  rewrite dropCR_noCR by (intros c Hc; exact (proj2 (no_eol_chars l Heol c Hc))).
  rewrite string_of_list_ascii_of_string. reflexivity.
Qed.

Lemma scan_lines_join : forall ls s, forallb line_ok ls = true ->
  scan_lines (join_lines ls ++ s) = ls ++ scan_lines s.
Proof.
  induction ls as [|l ls IH]; intros s Hok; [reflexivity|].
  simpl in Hok. apply andb_true_iff in Hok as [Hl Hls].
  change (join_lines (l :: ls)) with (l ++ nl ++ join_lines ls)%string.
  rewrite !sapp_assoc, scan_lines_cons by exact Hl.
  rewrite IH by exact Hls. reflexivity.
Qed.

Lemma join_lines_app : forall a b, join_lines (a ++ b) = (join_lines a ++ join_lines b)%string.
Proof.
  induction a as [|l a IH]; intros b; [reflexivity|].
  change (join_lines ((l :: a) ++ b)) with (l ++ nl ++ join_lines (a ++ b))%string.
  change (join_lines (l :: a)) with (l ++ nl ++ join_lines a)%string.
  rewrite IH, !sapp_assoc. reflexivity.
Qed.

Lemma sapp_nil_r : forall a : string, (a ++ "")%string = a.
Proof. induction a as [|x a IH]; simpl; [reflexivity | now rewrite IH]. Qed.

(** ** The initiator's commands *)

Section InitiatorProofs.
Variable KD : Type.
Implicit Types ne : executor KD.

(** X10: DiscoverTarget succeeds exactly when the discovery command
    succeeds and its output mentions the target and has no "Could not"
    in it; a "Could not" fails the call even when the target is listed. *)
Theorem DiscoverTarget_ok_iff : forall ne ip target,
  DiscoverTarget ne ip target = None <->
  exists output,
    run_command ne (Execute iscsiBinary ["-m"; "discovery"; "-t"; "sendtargets"; "-p"; ip])
      = Ok output /\
    Contains output "Could not" = false /\ Contains output target = true.
Proof.
  intros ne ip target. unfold DiscoverTarget.
  destruct (run_command ne _) as [output|e].
  - destruct (Contains output "Could not") eqn:Hc, (Contains output target) eqn:Ht; simpl;
      split; intros H; try discriminate;
      try (destruct H as (o & Ho & H1 & H2); injection Ho as <-; congruence);
      eauto.
  - split; [discriminate | intros (o & Ho & _); discriminate].
Qed.

(** X11: IsTargetLoggedIn recognises the session lines iscsiadm prints,
    [tcp: [<sid>] <ip>:<port> <target>] with or without the
    [ (non-flash)] suffix, on whatever line of the output they are, as
    long as the scanner reaches them (no earlier line of 64 KiB or more). *)
Theorem IsTargetLoggedIn_session_line : forall ne ip target sid port sfx pre post,
  let line := ("tcp: [" ++ sid ++ "] " ++ ip ++ ":" ++ port ++ " " ++ target ++ sfx)%string in
  run_command ne (Execute iscsiBinary ["-m"; "session"])
    = Ok (join_lines (pre ++ [line]) ++ post)%string ->
  (sfx = "" \/ sfx = " (non-flash)") ->
  forallb line_ok (pre ++ [line]) = true ->
  IsTargetLoggedIn ne ip target = true.
Proof.
  intros ne ip target sid port sfx pre post line Hrun Hsfx Hok.
  unfold IsTargetLoggedIn. rewrite Hrun, scan_lines_join by exact Hok.
  apply existsb_exists. exists line.
  split; [apply in_or_app; left; apply in_or_app; right; left; reflexivity|]. cbv beta.
  assert (Hip : Contains line (ip ++ ":") = true).
  { replace line with (("tcp: [" ++ sid ++ "] ") ++ (ip ++ ":") ++ (port ++ " " ++ target ++ sfx))%string
      by (unfold line; rewrite !sapp_assoc; reflexivity).
    apply Contains_app_mid. }
  rewrite Hip, andb_true_l.
  destruct Hsfx as [->| ->].
  - replace line with (("tcp: [" ++ sid ++ "] " ++ ip ++ ":" ++ port) ++ (" " ++ target))%string
      by (unfold line; rewrite sapp_nil_r, !sapp_assoc; reflexivity).
    rewrite HasSuffix_app. reflexivity.
  - replace line with (("tcp: [" ++ sid ++ "] " ++ ip ++ ":" ++ port) ++ (" " ++ target ++ " ")
                       ++ "(non-flash)")%string
      by (unfold line; rewrite !sapp_assoc; reflexivity).
    rewrite Contains_app_mid. apply orb_true_r.
Qed.

(** X12: the empty IP checks all portals: whenever IsTargetLoggedIn finds
    the target on some IP, it finds it with the IP "". *)
Theorem IsTargetLoggedIn_any_portal : forall ne ip target,
  IsTargetLoggedIn ne ip target = true -> IsTargetLoggedIn ne "" target = true.
Proof.
  intros ne ip target. unfold IsTargetLoggedIn.
  destruct (run_command ne _) as [output|e]; [|discriminate].
  intros Hex. apply existsb_exists in Hex as (line & Hin & Hl).
  apply existsb_exists. exists line. split; [exact Hin|].
  apply andb_true_iff in Hl as [Hip Ht]. rewrite Ht, andb_true_r.
  exact (Contains_suffix line ip ":" Hip).
Qed.

(** X13: LoginTarget runs nothing more after a failed login and returns
    its error unchanged; it runs the rescan command exactly when the login
    and the [-o show] query succeed and the query's output contains
    [node.session.scan = manual]; and it succeeds exactly when the login
    and the query succeed and, in manual scan mode, the rescan does. *)
Theorem LoginTarget_commands : forall ne ip target,
  let login := Execute iscsiBinary ["-m"; "node"; "-T"; target; "-p"; ip; "--login"] in
  let show := ExecuteWithTimeout ScanTimeout iscsiBinary
                ["-m"; "node"; "-T"; target; "-p"; ip; "-o"; "show"] in
  let rescan := ExecuteWithTimeout ScanTimeout iscsiBinary
                  ["-m"; "node"; "-T"; target; "-p"; ip; "--rescan"] in
  (forall e, run_command ne login = Err e -> LoginTarget ne ip target = ([login], Some e)) /\
  (In rescan (fst (LoginTarget ne ip target)) <->
   exists o1 o2, run_command ne login = Ok o1 /\ run_command ne show = Ok o2 /\
                 Contains o2 "node.session.scan = manual" = true) /\
  (snd (LoginTarget ne ip target) = None <->
   exists o1 o2, run_command ne login = Ok o1 /\ run_command ne show = Ok o2 /\
     (Contains o2 "node.session.scan = manual" = true -> exists o3, run_command ne rescan = Ok o3)).
Proof.
  intros ne ip target login show rescan.
  assert (Hl : rescan <> login) by discriminate.
  assert (Hs : rescan <> show) by (unfold rescan, show; intros Hc; injection Hc; discriminate).
  unfold LoginTarget, getIscsiNodeSessionScanMode, manualScanSession. fold login show rescan.
  destruct (run_command ne login) as [o1|e] eqn:H1.
  2:{ split; [intros e' He'; injection He' as <-; reflexivity|].
      split; split; simpl; try (intros (o & o' & Ho & _); discriminate).
      - intros [Hc|[]]. congruence.
      - discriminate. }
  split; [intros e' He'; discriminate|].
  destruct (run_command ne show) as [o2|e] eqn:H2.
  2:{ split; split; simpl; try (intros (o & o' & _ & Ho & _); discriminate).
      - intros [Hc|[Hc|[]]]; congruence.
      - discriminate. }
  destruct (Contains o2 "node.session.scan = manual") eqn:Hm; simpl.
  - destruct (run_command ne rescan) as [o3|e] eqn:H3; simpl.
    + split; split; [eauto 6 | tauto | eauto 6 | reflexivity].
    + split; split; [eauto 6 | tauto | discriminate |].
      intros (o & o' & Ho & Ho' & Hr). injection Ho' as <-.
      destruct (Hr Hm) as [o3 Ho3]. discriminate.
  - split; split.
    + intros [Hc|[Hc|[]]]; congruence.
    + intros (o & o' & Ho & Ho' & Hc). injection Ho' as <-. congruence.
    + exists o1, o2. split; [reflexivity|]. split; [reflexivity|]. intros Hc. congruence.
    + reflexivity.
Qed.

End InitiatorProofs.

(** ** GetDevice's retry loop *)

Section GetDeviceProofs.
Variable KD : Type.
Variable attempt : nat -> result KD.

Lemma retry_loop_first_success : forall k i rem dev err sl d,
  k < rem ->
  (forall j, j < k -> exists e, attempt (i + j) = Err e) ->
  attempt (i + k) = Ok d ->
  retry_loop attempt i rem dev err sl = (S (i + k), sl + k, (Some d, None)).
Proof.
  induction k as [|k IH]; intros i rem dev err sl d Hk Hfail Hd;
    destruct rem as [|rem]; try lia; simpl.
  - rewrite Nat.add_0_r in Hd. rewrite Hd, !Nat.add_0_r. reflexivity.
  - destruct (Hfail 0 ltac:(lia)) as [e He]. rewrite Nat.add_0_r in He. rewrite He.
    rewrite (IH (S i) rem None (Some e) (S sl) d) by
      (lia || (intros j Hj; rewrite Nat.add_succ_comm; apply Hfail; lia)
           || (rewrite Nat.add_succ_comm; exact Hd)).
    replace (S (S i + k)) with (S (i + S k)) by lia.
    replace (S sl + k) with (sl + S k) by lia. reflexivity.
Qed.

Lemma retry_loop_all_fail : forall rem i dev err sl e,
  0 < rem ->
  (forall j, j < rem -> exists e', attempt (i + j) = Err e') ->
  attempt (i + rem - 1) = Err e ->
  retry_loop attempt i rem dev err sl = (i + rem, sl + rem, (None, Some e)).
Proof.
  induction rem as [|rem IH]; intros i dev err sl e Hpos Hfail Hlast; [lia|].
  simpl. destruct (Hfail 0 ltac:(lia)) as [e0 He0]. rewrite Nat.add_0_r in He0. rewrite He0.
  destruct rem as [|rem].
  - replace (i + 1 - 1) with i in Hlast by lia. rewrite He0 in Hlast. injection Hlast as ->.
    simpl. replace (i + 1) with (S i) by lia. replace (sl + 1) with (S sl) by lia. reflexivity.
  - rewrite (IH (S i) None (Some e0) (S sl) e) by
      (lia || (intros j Hj; rewrite Nat.add_succ_comm; apply Hfail; lia)
           || (replace (S i + S rem - 1) with (i + S (S rem) - 1) by lia; exact Hlast)).
    replace (S i + S rem) with (i + S (S rem)) by lia.
    replace (S sl + S rem) with (sl + S (S rem)) by lia. reflexivity.
Qed.

(** X14: GetDevice stops at the first call of findScsiDevice that
    succeeds: if the calls before the [k]-th fail and the [k]-th, within
    the [DeviceWaitRetryCounts] attempts, finds a device, it makes [k+1]
    calls, sleeps [k] times and returns that device with no error. *)
Theorem GetDevice_first_success : forall N k d,
  (Z.of_nat k < N)%Z ->
  (forall j, j < k -> exists e, attempt j = Err e) ->
  attempt k = Ok d ->
  GetDevice attempt N = (S k, k, (Some d, None)).
Proof.
  intros N k d Hk Hfail Hd. unfold GetDevice.
  rewrite (retry_loop_first_success k 0 (Z.to_nat N) None None 0 d) by (simpl; (lia || exact Hfail || exact Hd)).
  reflexivity.
Qed.

(** X15: when all [DeviceWaitRetryCounts] (positive) calls of
    findScsiDevice fail, GetDevice makes exactly that many calls, sleeps
    after each of them, the last one included, and returns no device with
    the error of the last call. *)
Theorem GetDevice_all_fail : forall N e,
  (0 < N)%Z ->
  (forall j, j < Z.to_nat N -> exists e', attempt j = Err e') ->
  attempt (Z.to_nat N - 1) = Err e ->
  GetDevice attempt N = (Z.to_nat N, Z.to_nat N, (None, Some e)).
Proof.
  intros N e HN Hfail Hlast. unfold GetDevice.
  rewrite (retry_loop_all_fail (Z.to_nat N) 0 None None 0 e) by (simpl; (lia || exact Hfail || exact Hlast)).
  reflexivity.
Qed.

(** X16: with a [DeviceWaitRetryCounts] of zero or less, GetDevice never
    calls findScsiDevice and returns no device and no error. *)
Theorem GetDevice_no_attempts : forall N,
  (N <= 0)%Z -> GetDevice attempt N = (0, 0, (None, None)).
Proof.
  intros N HN. unfold GetDevice. replace (Z.to_nat N) with 0 by lia. reflexivity.
Qed.

End GetDeviceProofs.

(** ** findScsiDevice *)

Lemma space_head_word : forall c b, ascii_word c = true -> space_head (c :: b) = 0.
Proof.
  intros c b H. destruct c as [[] [] [] [] [] [] [] []]; try discriminate H; reflexivity.
Qed.

Lemma space_head_space : forall c b, ascii_space c = true -> space_head (c :: b) = 1.
Proof.
  intros c b H. destruct c as [[] [] [] [] [] [] [] []]; try discriminate H; reflexivity.
Qed.

Lemma space_tail_word : forall c b, ascii_word c = true -> space_tail (c :: b) = 0.
Proof.
  intros c b H. destruct c as [[] [] [] [] [] [] [] []]; try discriminate H; reflexivity.
Qed.

Lemma space_tail_space : forall c b, ascii_space c = true -> space_tail (c :: b) = 1.
Proof.
  intros c b H. destruct c as [[] [] [] [] [] [] [] []]; try discriminate H; reflexivity.
Qed.

Lemma trim_left_spaces : forall ws b f, forallb ascii_space ws = true -> length ws < f ->
  trim_left f (ws ++ b) = trim_left (f - length ws) b.
Proof.
  induction ws as [|w ws IH]; intros b f Hw Hf; simpl.
  - rewrite Nat.sub_0_r. reflexivity.
  - apply andb_true_iff in Hw as [Hw Hws]. destruct f as [|f]; [simpl in Hf; lia|].
    simpl. rewrite space_head_space by exact Hw. simpl. apply IH; [exact Hws | simpl in Hf; lia].
Qed.

Lemma trim_left_word : forall f b, head_word b = true -> trim_left f b = b.
Proof.
  intros [|f] [|c b] H; try discriminate H; [reflexivity|].
  simpl. rewrite space_head_word by exact H. reflexivity.
Qed.

Lemma trim_rev_spaces : forall ws b f, forallb ascii_space ws = true -> length ws < f ->
  trim_rev f (ws ++ b) = trim_rev (f - length ws) b.
Proof.
  induction ws as [|w ws IH]; intros b f Hw Hf; simpl.
  - rewrite Nat.sub_0_r. reflexivity.
  - apply andb_true_iff in Hw as [Hw Hws]. destruct f as [|f]; [simpl in Hf; lia|].
    simpl. rewrite space_tail_space by exact Hw. simpl. apply IH; [exact Hws | simpl in Hf; lia].
Qed.

Lemma trim_rev_word : forall f r, head_word r = true -> trim_rev f r = r.
Proof.
  intros [|f] [|c r] H; try discriminate H; [reflexivity|].
  simpl. rewrite space_tail_word by exact H. reflexivity.
Qed.

(** TrimSpace removes ASCII white space around a text that starts and
    ends with other ASCII characters. *)
Lemma TrimSpace_around : forall w1 core w2,
  forallb ascii_space (list_ascii_of_string w1) = true ->
  forallb ascii_space (list_ascii_of_string w2) = true ->
  head_word (list_ascii_of_string core) = true ->
  head_word (rev (list_ascii_of_string core)) = true ->
  TrimSpace (w1 ++ core ++ w2) = core.
Proof.
  intros w1 core w2 H1 H2 Hh Ht. unfold TrimSpace.
  rewrite !list_ascii_of_string_append.
  set (a := list_ascii_of_string w1) in *. set (m := list_ascii_of_string core) in *.
  set (z := list_ascii_of_string w2) in *.
  assert (Hm : length m > 0) by (destruct m; [discriminate Hh | simpl; lia]).
  rewrite trim_left_spaces by (exact H1 || (rewrite !length_app; lia)).
  rewrite trim_left_word by (destruct m; [discriminate Hh | exact Hh]).
  rewrite rev_app_distr.
  rewrite trim_rev_spaces by
    ((rewrite forallb_forall; intros x Hx; apply in_rev in Hx;
      rewrite forallb_forall in H2; exact (H2 x Hx)) || (rewrite length_app, length_rev; lia)).
  rewrite trim_rev_word by exact Ht.
  rewrite rev_involutive. apply string_of_list_ascii_of_string.
Qed.

(** The first field of a line: [strings.Split(line, sep)[0]] is the text
    before [sep] when the text has no first character of [sep]. *)
Lemma Split0_before : forall p c sep r,
  forallb (fun x => negb (Ascii.eqb x c)) (list_ascii_of_string p) = true ->
  Split0 (p ++ String c sep ++ r) (String c sep) = p.
Proof.
  induction p as [|x p IH]; intros c sep r H.
  - simpl. replace (HasPrefix (String c (sep ++ r)) (String c sep)) with true.
    + reflexivity.
    + symmetry. exact (HasPrefix_app (String c sep) r).
  - simpl in H. apply andb_true_iff in H as [Hx Hp].
    simpl. unfold HasPrefix at 1. simpl.
    rewrite Ascii.eqb_sym. destruct (Ascii.eqb x c); [discriminate Hx|].
    exact (f_equal (String x) (IH c sep r Hp)).
Qed.

Lemma lower_alnum_word : forall c, is_lower_alnum c = true -> ascii_word c = true.
Proof.
  intros c H. unfold is_lower_alnum in H. unfold ascii_word, ascii_space.
  set (n := nat_of_ascii c) in *.
  apply orb_true_iff in H as [H|H]; apply andb_true_iff in H as [H1 H2];
    apply Nat.leb_le in H1; apply Nat.leb_le in H2;
    apply andb_true_iff; split;
    try (apply Nat.ltb_lt; lia);
    apply negb_true_iff, orb_false_iff; split;
    try (apply Nat.eqb_neq; lia);
    apply andb_false_iff; right; apply Nat.leb_gt; lia.
Qed.

(** The name of the disk in an [Attached scsi disk] line. *)
Lemma disk_name_of_line : forall name st,
  name <> ""%string -> forallb is_lower_alnum (list_ascii_of_string name) = true ->
  TrimSpace (TrimPrefix (TrimSpace (Split0 (attached_disk_line name st) stateLine)) diskPrefix) = name.
Proof.
  intros name st Hne Hl.
  assert (Hw : forallb ascii_word (list_ascii_of_string name) = true).
  { rewrite forallb_forall in *. intros x Hx. apply lower_alnum_word, Hl, Hx. }
  assert (Hhd : head_word (list_ascii_of_string name) = true).
  { destruct name as [|x name]; [congruence|]. simpl in Hw |- *.
    apply andb_true_iff in Hw as [Hw _]. exact Hw. }
  assert (Htl : head_word (rev (list_ascii_of_string name)) = true).
  { destruct (rev (list_ascii_of_string name)) as [|x r] eqn:Hr.
    - apply (f_equal (@rev ascii)) in Hr. rewrite rev_involutive in Hr.
      destruct name; [congruence | discriminate Hr].
    - simpl. rewrite forallb_forall in Hw. apply Hw, in_rev. rewrite Hr. left. reflexivity. }
  unfold attached_disk_line, stateLine.
  replace (tab ++ tab ++ "Attached scsi disk " ++ name ++ tab ++ tab ++ "State: " ++ st)%string
    with (((tab ++ tab) ++ ("Attached scsi disk " ++ name) ++ (tab ++ tab)) ++ String "S" "tate:" ++ " " ++ st)%string
    by (rewrite !sapp_assoc; reflexivity).
  rewrite Split0_before.
  2:{ rewrite !list_ascii_of_string_append, !forallb_app. simpl.
      rewrite andb_true_r. rewrite forallb_forall. intros x Hx.
      rewrite forallb_forall in Hl. specialize (Hl x Hx). unfold is_lower_alnum in Hl.
      apply negb_true_iff. destruct (Ascii.eqb x "S") eqn:Hs; [|reflexivity].
      apply Ascii.eqb_eq in Hs. subst x. discriminate Hl. }
  assert (Htl' : head_word (rev (list_ascii_of_string ("Attached scsi disk " ++ name))) = true).
  { rewrite list_ascii_of_string_append, rev_app_distr.
    destruct (rev (list_ascii_of_string name)); [discriminate Htl | exact Htl]. }
  rewrite (TrimSpace_around (tab ++ tab) ("Attached scsi disk " ++ name) (tab ++ tab)
             eq_refl eq_refl) by
    ((rewrite list_ascii_of_string_append; reflexivity) || exact Htl').
  unfold diskPrefix.
  replace ("Attached scsi disk " ++ name)%string with ("Attached scsi disk" ++ " " ++ name)%string
    by (rewrite <- sapp_assoc; reflexivity).
  rewrite TrimPrefix_app.
  replace (" " ++ name)%string with (" " ++ name ++ "")%string by (rewrite sapp_nil_r; reflexivity).
  apply TrimSpace_around; [reflexivity | reflexivity | exact Hhd | exact Htl].
Qed.

Section FindScan.
Variables (T I L o : string).

Lemma find_scan_pre : forall pre rest,
  forallb (fun l => negb (Contains l (T ++ " ") || HasSuffix l T)) pre = true ->
  find_scan T I L o (pre ++ rest) false false false = find_scan T I L o rest false false false.
Proof.
  induction pre as [|l pre IH]; intros rest H; [reflexivity|].
  simpl in H. apply andb_true_iff in H as [Hl H].
  apply negb_true_iff in Hl. simpl. rewrite Hl. simpl. exact (IH rest H).
Qed.

Lemma find_scan_mid : forall mid rest,
  forallb (fun l => negb (Contains l I)) mid = true ->
  find_scan T I L o (mid ++ rest) true false false = find_scan T I L o rest true false false.
Proof.
  induction mid as [|l mid IH]; intros rest H; [reflexivity|].
  simpl in H. apply andb_true_iff in H as [Hl H].
  apply negb_true_iff in Hl. simpl. rewrite Hl. exact (IH rest H).
Qed.

Lemma find_scan_mid2 : forall mid rest,
  forallb (fun l => negb (Contains l L)) mid = true ->
  find_scan T I L o (mid ++ rest) true true false = find_scan T I L o rest true true false.
Proof.
  induction mid as [|l mid IH]; intros rest H; [reflexivity|].
  simpl in H. apply andb_true_iff in H as [Hl H].
  apply negb_true_iff in Hl. simpl. rewrite Hl.
  destruct (Contains l I); exact (IH rest H).
Qed.

Lemma find_scan_block : forall pre tl mid pl mid2 ll dl rest,
  forallb (fun l => negb (Contains l (T ++ " ") || HasSuffix l T)) pre = true ->
  Contains tl (T ++ " ") || HasSuffix tl T = true ->
  forallb (fun l => negb (Contains l I)) mid = true ->
  Contains pl I = true ->
  forallb (fun l => negb (Contains l L)) mid2 = true ->
  Contains ll I = false -> Contains ll L = true ->
  Contains dl I = false -> Contains dl L = false ->
  find_scan T I L o (pre ++ [tl] ++ mid ++ [pl] ++ mid2 ++ [ll; dl] ++ rest) false false false
  = if negb (Contains dl diskPrefix)
    then Err ("invalid output format, cannot find disk in: " ++ dl ++ nl ++ " " ++ o)%string
    else Ok (TrimSpace (TrimPrefix (TrimSpace (Split0 dl stateLine)) diskPrefix)).
Proof.
  intros pre tl mid pl mid2 ll dl rest Hpre Htl Hmid Hpl Hmid2 HllI HllL HdlI HdlL.
  rewrite find_scan_pre by exact Hpre. simpl app at 1. simpl find_scan at 1. rewrite Htl.
  simpl negb. cbv beta iota.
  rewrite find_scan_mid by exact Hmid. simpl app at 1. simpl find_scan at 1. rewrite Hpl.
  cbv beta iota.
  rewrite find_scan_mid2 by exact Hmid2. simpl find_scan at 1. rewrite HllI, HllL.
  simpl find_scan at 1. rewrite HdlI, HdlL. reflexivity.
Qed.

End FindScan.

Lemma Contains_attached_disk : forall name st,
  Contains (attached_disk_line name st) diskPrefix = true.
Proof.
  intros name st. unfold attached_disk_line.
  replace (tab ++ tab ++ "Attached scsi disk " ++ name ++ tab ++ tab ++ "State: " ++ st)%string
    with ((tab ++ tab) ++ diskPrefix ++ (" " ++ name ++ tab ++ tab ++ "State: " ++ st))%string
    by (unfold diskPrefix; rewrite !sapp_assoc; reflexivity).
  apply Contains_app_mid.
Qed.

Section FindScsiDeviceProofs.
Variable KD : Type.
Implicit Types ne : executor KD.

Lemma findScsiDevice_scan : forall ne ip target lun output,
  run_command ne (Execute iscsiBinary ["-m"; "session"; "-P"; "3"]) = Ok output ->
  findScsiDevice ne ip target lun =
  match find_scan ("Target: " ++ target) (" " ++ ip ++ ":") ("Lun: " ++ Itoa lun) output
                  (scan_lines output) false false false with
  | Err e => ([CallSession], Err e)
  | Ok name =>
    if String.eqb name "" then ([CallSession], Err "cannot find iSCSI device")
    else match GetKnownDevices ne with
         | Err e => ([CallSession; CallKnownDevices], Err e)
         | Ok devices =>
           match devices name with
           | None => ([CallSession; CallKnownDevices],
                      Err ("cannot find kernel device for iSCSI device: " ++ name)%string)
           | Some dev => ([CallSession; CallKnownDevices], Ok dev)
           end
         end
  end.
Proof. intros ne ip target lun output H. unfold findScsiDevice. rewrite H. reflexivity. Qed.

(** X17: findScsiDevice finds the disk of a LUN in the output of
    [iscsiadm -m session -P 3]: after the first line that names the target,
    the first later line holding [ <ip>:] and then a line holding
    [Lun: <lun>], the next line [Attached scsi disk <name> State: ...]
    gives the device the kernel knows under [<name>].  The lines between
    the target line and the portal line may belong to other targets, and
    the LUN line only needs to contain [Lun: <lun>], so LUN 1 also matches
    a [Lun: 10] line. *)
Theorem findScsiDevice_block : forall ne ip target lun pre tl mid pl mid2 ll name st post devices dev,
  let T := ("Target: " ++ target)%string in
  let I := (" " ++ ip ++ ":")%string in
  let L := ("Lun: " ++ Itoa lun)%string in
  let dl := attached_disk_line name st in
  let lines := pre ++ [tl] ++ mid ++ [pl] ++ mid2 ++ [ll; dl] in
  run_command ne (Execute iscsiBinary ["-m"; "session"; "-P"; "3"])
    = Ok (join_lines lines ++ post)%string ->
  forallb line_ok lines = true ->
  forallb (fun l => negb (Contains l (T ++ " ") || HasSuffix l T)) pre = true ->
  Contains tl (T ++ " ") || HasSuffix tl T = true ->
  forallb (fun l => negb (Contains l I)) mid = true ->
  Contains pl I = true ->
  forallb (fun l => negb (Contains l L)) mid2 = true ->
  Contains ll I = false -> Contains ll L = true ->
  Contains dl I = false -> Contains dl L = false ->
  name <> ""%string -> forallb is_lower_alnum (list_ascii_of_string name) = true ->
  GetKnownDevices ne = Ok devices -> devices name = Some dev ->
  findScsiDevice ne ip target lun = ([CallSession; CallKnownDevices], Ok dev).
Proof.
  intros ne ip target lun pre tl mid pl mid2 ll name st post devices dev T I L dl lines
    Hrun Hok Hpre Htl Hmid Hpl Hmid2 HllI HllL HdlI HdlL Hne Hname Hdevs Hdev.
  rewrite (findScsiDevice_scan ne ip target lun _ Hrun).
  rewrite scan_lines_join by exact Hok. unfold lines. rewrite <- !app_assoc.
  rewrite find_scan_block by assumption.
  unfold dl. rewrite Contains_attached_disk. simpl negb. cbv iota.
  rewrite disk_name_of_line by assumption.
  destruct (String.eqb name "") eqn:He; [apply String.eqb_eq in He; contradiction|].
  rewrite Hdevs, Hdev. reflexivity.
Qed.

(** X18: when the line after the LUN line found for the target and the
    portal has no [Attached scsi disk] in it, findScsiDevice fails with
    that line and the whole output in the message, without asking for the
    known devices. *)
Theorem findScsiDevice_invalid_format : forall ne ip target lun pre tl mid pl mid2 ll dl post,
  let T := ("Target: " ++ target)%string in
  let I := (" " ++ ip ++ ":")%string in
  let L := ("Lun: " ++ Itoa lun)%string in
  let lines := pre ++ [tl] ++ mid ++ [pl] ++ mid2 ++ [ll; dl] in
  let output := (join_lines lines ++ post)%string in
  run_command ne (Execute iscsiBinary ["-m"; "session"; "-P"; "3"]) = Ok output ->
  forallb line_ok lines = true ->
  forallb (fun l => negb (Contains l (T ++ " ") || HasSuffix l T)) pre = true ->
  Contains tl (T ++ " ") || HasSuffix tl T = true ->
  forallb (fun l => negb (Contains l I)) mid = true ->
  Contains pl I = true ->
  forallb (fun l => negb (Contains l L)) mid2 = true ->
  Contains ll I = false -> Contains ll L = true ->
  Contains dl I = false -> Contains dl L = false ->
  Contains dl diskPrefix = false ->
  findScsiDevice ne ip target lun =
  ([CallSession], Err ("invalid output format, cannot find disk in: " ++ dl ++ nl ++ " " ++ output)%string).
Proof.
  intros ne ip target lun pre tl mid pl mid2 ll dl post T I L lines output
    Hrun Hok Hpre Htl Hmid Hpl Hmid2 HllI HllL HdlI HdlL Hdisk.
  rewrite (findScsiDevice_scan ne ip target lun _ Hrun).
  unfold output at 2. rewrite scan_lines_join by exact Hok. unfold lines. rewrite <- !app_assoc.
  rewrite find_scan_block by assumption.
  rewrite Hdisk. reflexivity.
Qed.

Lemma find_scan_no_target : forall T I L o lines,
  forallb (fun l => negb (Contains l (T ++ " ") || HasSuffix l T)) lines = true ->
  find_scan T I L o lines false false false = Ok "".
Proof.
  intros T I L o lines H.
  rewrite <- (app_nil_r lines), find_scan_pre by exact H. reflexivity.
Qed.

(** X19: when no line the scanner reads names the target, findScsiDevice
    fails with [cannot find iSCSI device] without asking for the known
    devices. *)
Theorem findScsiDevice_no_target : forall ne ip target lun output,
  run_command ne (Execute iscsiBinary ["-m"; "session"; "-P"; "3"]) = Ok output ->
  forallb (fun l => negb (Contains l ("Target: " ++ target ++ " ") || HasSuffix l ("Target: " ++ target)))
          (scan_lines output) = true ->
  findScsiDevice ne ip target lun = ([CallSession], Err "cannot find iSCSI device").
Proof.
  intros ne ip target lun output Hrun H.
  rewrite (findScsiDevice_scan ne ip target lun _ Hrun).
  rewrite find_scan_no_target by (rewrite sapp_assoc; exact H). reflexivity.
Qed.

End FindScsiDeviceProofs.

(** ** The extra properties at concrete inputs *)

Lemma switchNs_success_trace_witness :
  exists fd1 fd2,
    sys_open (good_env None) "/proc/42/ns/net" = OpenFd fd1 /\
    sys_open (good_env None) "/proc/42/ns/mnt" = OpenFd fd2 /\
    fst (switchNs (good_env None) "/proc/42/ns/mnt" "/proc/42/ns/net") =
      [EvOpen "/proc/42/ns/net"; EvSetns fd1 CLONE_NEWNET; EvClose fd1;
       EvOpen "/proc/42/ns/mnt"; EvSetns fd2 CLONE_NEWNS; EvClose fd2].
Proof.
  apply (switchNs_success_trace (good_env None) "/proc/42/ns/mnt" "/proc/42/ns/net"
           (fst (switchNs (good_env None) "/proc/42/ns/mnt" "/proc/42/ns/net"))).
  vm_compute. reflexivity.
Defined.

Lemma switchNs_closes_opened_witness :
  In (EvClose 5) (fst (switchNs (good_env None) "/proc/42/ns/mnt" "/proc/42/ns/net")).
Proof.
  apply (switchNs_closes_opened (good_env None) "/proc/42/ns/mnt" "/proc/42/ns/net"
           "/proc/42/ns/net" 5).
  - vm_compute. left. reflexivity.
  - vm_compute. reflexivity.
Defined.


Lemma logic_error_returned_witness :
  go_result (r_outcome (ForkAndSwitchToNamespace (good_env (Some (Some true, Some "boom")))))
    = Some (None, Some "boom").
Proof.
  apply (logic_error_returned (good_env (Some (Some true, Some "boom"))) 3 4 100 (Some true) "boom");
    vm_compute; reflexivity.
Defined.

Lemma marshal_error_returned_witness :
  go_result (r_outcome (ForkAndSwitchToNamespace
                          (fork_env (T := chan_int) (Some (Some tt, None)) good_open)))
    = Some (None, Some "json: unsupported type: chan int").
Proof.
  apply (marshal_error_returned (fork_env (T := chan_int) (Some (Some tt, None)) good_open)
           3 4 100 tt "json: unsupported type: chan int");
    vm_compute; reflexivity.
Defined.

Lemma hanging_logic_times_out_witness :
  r_received (ForkAndSwitchToNamespace (good_env None)) = None /\
  go_result (r_outcome (ForkAndSwitchToNamespace (good_env None)))
    = Some (None, Some "ForkAndSwitchToNamespace timed out") /\
  In (EvKill 100 SIGINT) (r_parent (ForkAndSwitchToNamespace (good_env None))).
Proof.
  apply (hanging_logic_times_out (good_env None) 3 4 100); vm_compute; reflexivity.
Defined.

Lemma received_is_message_prefix_witness :
  list_ascii_of_string "ok:t" = [] \/
  exists out err sfx, list_ascii_of_string "ok:t" ++ sfx = child_message out err /\
    ((exists sev m, switchNs truncated_env (filepath_Join (ns truncated_env) "mnt")
                      (filepath_Join (ns truncated_env) "net") = (sev, Some m) /\
                    out = None /\ err = Some m) \/
     (snd (switchNs truncated_env (filepath_Join (ns truncated_env) "mnt")
             (filepath_Join (ns truncated_env) "net")) = None /\
      toExecute truncated_env = Some (out, err))).
Proof.
  apply (received_is_message_prefix truncated_env). vm_compute. reflexivity.
Defined.

Lemma fileinfo_call_yields_nil_witness :
  @None string = None /\ @None Initiator.file_stat = None.
Proof.
  apply (fileinfo_call_yields_nil (fork_env (T := Initiator.FileInfo) (Some (None, None)) good_open)).
  vm_compute. reflexivity.
Defined.

Lemma IsTargetLoggedIn_session_line_witness :
  IsTargetLoggedIn (test_executor [(["-m"; "session"], Ok (join_lines [session_line]))])
    "10.0.0.5" test_target = true.
Proof.
  apply (IsTargetLoggedIn_session_line _ _ "10.0.0.5" test_target "463" "3260,1" " (non-flash)" [] "").
  - vm_compute. reflexivity.
  - right. reflexivity.
  - vm_compute. reflexivity.
Defined.

Lemma IsTargetLoggedIn_any_portal_witness :
  IsTargetLoggedIn (test_executor [(["-m"; "session"], Ok (join_lines [session_line]))])
    "" test_target = true.
Proof.
  apply (IsTargetLoggedIn_any_portal _ _ "10.0.0.5"). vm_compute. reflexivity.
Defined.

Lemma GetDevice_first_success_witness :
  GetDevice appearing_attempt 10 = (3, 2, (Some (8%Z, 16%Z), None)).
Proof.
  apply (GetDevice_first_success _ appearing_attempt 10 2 (8%Z, 16%Z)).
  - lia.
  - intros j Hj. exists "exit status 21".
    destruct j as [|[|j]]; [reflexivity | reflexivity | lia].
  - vm_compute. reflexivity.
Defined.

Lemma GetDevice_all_fail_witness :
  GetDevice (fun _ => snd (findScsiDevice (test_executor []) "10.0.0.5" test_target 1)) 3
    = (3, 3, (None, Some "exit status 21")).
Proof.
  apply (GetDevice_all_fail _ (fun _ => snd (findScsiDevice (test_executor []) "10.0.0.5" test_target 1))
           3 "exit status 21").
  - lia.
  - intros j Hj. exists "exit status 21". reflexivity.
  - reflexivity.
Defined.

Lemma GetDevice_no_attempts_witness :
  GetDevice appearing_attempt 0 = (0, 0, (None, None)).
Proof. apply (GetDevice_no_attempts _ appearing_attempt 0). lia. Defined.

(** LUN 1 is looked up in a session that only has LUN 10. *)
Lemma findScsiDevice_block_witness :
  findScsiDevice (test_executor [(["-m"; "session"; "-P"; "3"], Ok session_p3_lun10)])
    "10.0.0.5" test_target 1 = ([CallSession; CallKnownDevices], Ok (8%Z, 16%Z)).
Proof.
  apply (findScsiDevice_block _ _ "10.0.0.5" test_target 1 [] ("Target: " ++ test_target)%string []
           portal_line [] (tab ++ tab ++ "scsi12 Channel 00 Id 0 Lun: 10")%string "sdb" "running" ""
           known_devices (8%Z, 16%Z));
    try (vm_compute; reflexivity); discriminate.
Defined.

Lemma findScsiDevice_invalid_format_witness :
  findScsiDevice (test_executor [(["-m"; "session"; "-P"; "3"], Ok session_p3_bad)])
    "10.0.0.5" test_target 1 =
  ([CallSession], Err ("invalid output format, cannot find disk in: " ++ tab ++ tab ++
                       "Host Number: 12" ++ nl ++ " " ++ session_p3_bad)%string).
Proof.
  refine (findScsiDevice_invalid_format _ _ "10.0.0.5" test_target 1 [] ("Target: " ++ test_target)%string []
            portal_line [] (tab ++ tab ++ "scsi12 Channel 00 Id 0 Lun: 1")%string
            (tab ++ tab ++ "Host Number: 12")%string "" _ _ _ _ _ _ _ _ _ _ _ _);
    vm_compute; reflexivity.
Defined.

Lemma findScsiDevice_no_target_witness :
  findScsiDevice (test_executor [(["-m"; "session"; "-P"; "3"], Ok session_p3)])
    "10.0.0.5" "iqn.2019-10.io.longhorn:other" 1 = ([CallSession], Err "cannot find iSCSI device").
Proof.
  apply (findScsiDevice_no_target _ _ "10.0.0.5" "iqn.2019-10.io.longhorn:other" 1 session_p3);
    vm_compute; reflexivity.
Defined.

